(** * Human Universal Gridder (hug-chakra): closest-value resolution and
    grid template slicing

    A shallow embedding of [lib/utils.ts] ([getClosestValue]), of
    [lib/config.ts] ([HugConfig]) and of [lib/hug.tsx] ([Hug], [useHugGrid]),
    followed by the properties the specification states about them.

    Modelling conventions.
    - A JavaScript object used as [Record<string, T>] is a [gmap string T] of
      its own enumerable properties. Keys are breakpoint names; members
      inherited from [Object.prototype] are not part of the model.
    - [undefined] is [None]: an optional argument that was not passed, a
      missing property, an array read out of range.
    - A [number] that counts columns is an integer, [Z]. Array lengths stay
      far below the engine's upper bound of [2^32 - 1] elements, which, like
      memory, is not modelled; a negative length raises [RangeError].
    - A [throw] is the left summand of [JsError + A].
    - The React hooks [useTheme], [useBreakpointValue] and [useToken] belong to
      Chakra UI; their results are inputs of the model ([Env]). *)

From Stdlib Require Import Ascii.
From stdpp Require Import gmap strings list fin_maps pretty.

Local Open Scope string_scope.
Local Open Scope list_scope.
Local Open Scope Z_scope.

(** ** JavaScript values and array operations *)

Module Js.

(** The errors the code can raise, with their message. *)
Inductive JsError : Type :=
| Error (message : string)
| RangeError (message : string)
| TypeError (message : string).

Definition Result (A : Type) : Type := (JsError + A)%type.

Definition ret {A : Type} (a : A) : Result A := inr a.
Definition throw {A : Type} (e : JsError) : Result A := inl e.
Definition bind {A B : Type} (m : Result A) (k : A → Result B) : Result B :=
  match m with
  | inl e => inl e
  | inr a => k a
  end.

(** [ToBoolean]: the condition of an [if] or of [!x]. *)
Class Truthy (T : Type) := truthy : T → bool.

(** Numbers: only zero is falsy (among integers). *)
#[export] Instance number_truthy : Truthy Z := λ n, negb (n =? 0)%Z.
(** Strings: only the empty string is falsy. *)
#[export] Instance string_truthy : Truthy string :=
  λ s, match s with EmptyString => false | String _ _ => true end.
(** Arrays are objects: always truthy. *)
#[export] Instance array_truthy {A : Type} : Truthy (list A) := λ _, true.
(** A possibly [undefined] value: [undefined] is falsy. *)
#[export] Instance undefined_truthy {T : Type} `{Truthy T} : Truthy (option T) :=
  λ o, match o with Some v => truthy v | None => false end.

(** [ToString] of a possibly [undefined] string, as a template literal or a
    property access performs it. *)
Definition toStr (o : option string) : string := default "undefined" o.

(** [ToString] of an integer number. *)
Definition numberToString (n : Z) : string := pretty n.

(** [arr.findIndex(p)]: first index whose element satisfies [p], else -1. *)
Fixpoint findIndexFrom {A : Type} (p : A → bool) (arr : list A) (i : Z) : Z :=
  match arr with
  | [] => -1
  | x :: rest => if p x then i else findIndexFrom p rest (i + 1)
  end.
Definition findIndex {A : Type} (p : A → bool) (arr : list A) : Z :=
  findIndexFrom p arr 0.

(** [arr.indexOf(x)] on strings (strict equality). *)
Definition indexOf (arr : list string) (x : string) : Z :=
  findIndex (λ y, bool_decide (y = x)) arr.

(** [arr[i]]. *)
Definition at_ {A : Type} (arr : list A) (i : Z) : option A :=
  if (i <? 0)%Z then None else arr !! Z.to_nat i.

(** Relative index clamping of [Array.prototype.slice]. *)
Definition relIndex (len k : Z) : Z :=
  if (k <? 0)%Z then Z.max (len + k) 0 else Z.min k len.

(** [arr.slice(start, end)]. *)
Definition slice {A : Type} (arr : list A) (start end_ : Z) : list A :=
  let len := Z.of_nat (length arr) in
  let k := relIndex len start in
  let final := relIndex len end_ in
  take (Z.to_nat (final - k)) (drop (Z.to_nat k) arr).

(** [arr.join(sep)] on strings. *)
Fixpoint join (sep : string) (arr : list string) : string :=
  match arr with
  | [] => ""
  | [x] => x
  | x :: rest => x +:+ sep +:+ join sep rest
  end.

(** [Array(n).fill(0)] followed by the indices [.map((_, i) => ...)] sees. *)
Definition arrayIndices (n : Z) : Result (list Z) :=
  if (n <? 0)%Z then throw (RangeError "Invalid array length")
  else ret (Z.of_nat <$> seq 0 (Z.to_nat n)).

(** [Object.keys(obj)]; only membership is ever observed. *)
Definition keys {T : Type} (obj : gmap string T) : list string :=
  (map_to_list obj).*1.

(** The line feed of a multi-line template literal. *)
Definition LF : string := String (Ascii.ascii_of_nat 10) "".

End Js.

Import Js.

Notation "'try!' x ':=' m 'in' k" := (Js.bind m (λ x, k))
  (at level 10, x name, m at level 100, k at level 200).

(** ** lib/utils.ts *)

Module Utils.
Section getClosestValue.

Context {T : Type} `{Truthy T}.

(** The [while (stopIndex >= 0)] loop, entered with [stopIndex = n - 1];
    the result is the value of [index] after the loop. The loop variable
    only decreases, so the recursion is on [stopIndex + 1]. *)
Fixpoint scanBack (values : gmap string T) (breakpoints : list string)
    (n : nat) : Z :=
  match n with
  | O => -1
  | S i =>
      let stopIndex := Z.of_nat i in
      let key := toStr (at_ breakpoints stopIndex) in
      if truthy (values !! key) then stopIndex
      else scanBack values breakpoints i
  end.

Definition getClosestValue (values : gmap string T) (breakpoint : string)
    (breakpoints : list string) (defaultValue : option T) : option T :=
  let index := indexOf (keys values) breakpoint in
  if negb (index =? -1)%Z then values !! breakpoint
  else
    let stopIndex := indexOf breakpoints breakpoint in
    let index := scanBack values breakpoints (Z.to_nat (stopIndex + 1)) in
    if negb (index =? -1)%Z then
      let key := toStr (at_ breakpoints index) in
      values !! key
    else defaultValue.

End getClosestValue.
End Utils.

Import Utils.

(** ** lib/config.ts *)

Module Config.

Record HugConfigProps : Type := {
  layoutMax : string;
  gaps : gmap string string;
  columns : gmap string Z
}.

Definition HugConfig : HugConfigProps := {|
  layoutMax := "container.xl";
  gaps := list_to_map [("base", "4"); ("md", "8"); ("lg", "12")];
  columns := list_to_map [("base", 4); ("md", 8); ("lg", 12)]
|}.

(** [Partial<HugConfigProps>]: every property may be left out. *)
Record PartialHugConfigProps : Type := {
  partialLayoutMax : option string;
  partialGaps : option (gmap string string);
  partialColumns : option (gmap string Z)
}.

(** The object to put under [config] of a theme. *)
Record HugThemeConfig : Type := { hug : HugConfigProps }.

(** [{ hug: { ...HugConfig, ...config } }]: a property of [config] replaces
    the default property as a whole. *)
Definition extendHugConfig (config : PartialHugConfigProps) : HugThemeConfig :=
  {| hug := {| layoutMax := default (layoutMax HugConfig) (partialLayoutMax config);
               gaps := default (gaps HugConfig) (partialGaps config);
               columns := default (columns HugConfig) (partialColumns config) |} |}.

End Config.

Import Config.

(** ** lib/hug.tsx *)

Module HugGrid.

(** One entry of a grid template: a line name and the text that goes into
    [grid-template-columns]. A line without a size has the value
    [[<name>]]. *)
Record Column : Type := { name : string; value : string }.

(** What the component reads from Chakra UI: the theme (its optional
    [config.hug] and the optional keys of [__breakpoints]), the current
    breakpoint and the resolution of a token of a scale. The component calls
    [useToken] with a one-element array and takes the first result; the
    model resolves that one token. *)
Record Theme : Type := {
  config_hug : option HugConfigProps;
  breakpoints_keys : option (list string)
}.

Record Env : Type := {
  useTheme : Theme;
  useBreakpointValue : list string → option string;
  useToken : string → string → string
}.

Record HugProps : Type := { hugGrid : option (gmap string (list string)) }.

Record HugGridHookProps : Type := {
  userGrid : option (gmap string (list string));
  columnCount : Z;
  hookLayoutMax : string;
  gridGap : string;
  currentMdq : string;
  breakpoints : list string
}.

(** The result of [useHugGrid]; [gridColumn] stays [undefined] without a
    user grid. *)
Record GridProps : Type := {
  gridTemplateColumns : string;
  gridColumn : option string
}.

(** The props handed to [chakra.div] (besides [ref] and [rest]). *)
Record DivProps : Type := {
  display : string;
  gap : string;
  grid : GridProps
}.

Definition msgBreakpoint : string :=
  "🤗 Human Universal Gridder: Can't get current breakpoint".
Definition msgGapToken : string :=
  "🤗 Human Universal Gridder: Can't get current gap token".
Definition msgColumns : string :=
  "🤗 Human Universal Gridder: Can't get current number of columns".

(** The message of the error raised for a grid line that does not exist. *)
Definition msgLine (line : option string) (currentMdq : string)
    (columnCount : Z) (names : list string) : string :=
  "🤗 Human Universal Gridder" +:+ LF +:+ LF +:+
  "The grid line `" +:+ toStr line +:+ "` does not exist in the " +:+
  currentMdq +:+ " media query which has " +:+
  numberToString columnCount +:+ " columns." +:+ LF +:+
  "Grid lines for " +:+ currentMdq +:+ ": " +:+ join " | " names.

(** [contentColWidth], from [layoutMaxNoPadding] and [fullColumn]. *)
Definition contentColWidth (layoutMax gridGap : string) (columnCount : Z)
    : string :=
  let layoutMaxNoPadding := "calc(" +:+ layoutMax +:+ " - " +:+ gridGap +:+ ")" in
  let fullColumn :=
    "calc(" +:+ layoutMaxNoPadding +:+ " / " +:+
    numberToString columnCount +:+ ")" in
  "calc(" +:+ fullColumn +:+ " - " +:+ gridGap +:+ ")".

(** [contentColumns]: lines [content-2] to [content-<columnCount>]. *)
Definition contentColumns (columnCount : Z) (colWidth : string)
    : Result (list Column) :=
  try! indices := arrayIndices (columnCount - 1) in
  ret ((λ i : Z,
          {| name := "content-" +:+ numberToString (i + 2);
             value := "[content-" +:+ numberToString (i + 2) +:+
                      "] minmax(0, " +:+ colWidth +:+ ")" |}) <$> indices).

(** [gridTemplateForMdq]: every column definition of the breakpoint. *)
Definition gridTemplateForMdq (columnCount : Z) (colWidth : string)
    : Result (list Column) :=
  try! cols := contentColumns columnCount colWidth in
  ret ([ {| name := "full-start"; value := "[full-start] minmax(0, 1fr)" |};
         {| name := "content-start";
            value := "[content-start] minmax(0, " +:+ colWidth +:+ ")" |} ]
       ++ cols ++
       [ {| name := "content-end"; value := "[content-end] minmax(0, 1fr)" |};
         {| name := "full-end"; value := "[full-end]" |} ]).

(** The body of [if (userGrid)] once [start] and [end] are known: the
    columns between the two lines, closed by the name of the last one. *)
Definition subGrid (template : list Column) (currentMdq : string)
    (columnCount : Z) (start end_ : option string) : Result (list Column) :=
  let startIdx := findIndex (λ col, bool_decide (Some (name col) = start)) template in
  let endIdx := findIndex (λ col, bool_decide (Some (name col) = end_)) template in
  if (startIdx =? -1)%Z || (endIdx =? -1)%Z then
    let line := if (startIdx =? -1)%Z then start else end_ in
    throw (Error (msgLine line currentMdq columnCount (name <$> template)))
  else
    match at_ template endIdx with
    | None => throw (TypeError "Cannot read properties of undefined")
    | Some lastColumn =>
        ret (slice template startIdx endIdx ++
             [ {| name := name lastColumn;
                  value := "[" +:+ name lastColumn +:+ "]" |} ])
    end.

Definition useHugGrid (props : HugGridHookProps) : Result GridProps :=
  let colWidth :=
    contentColWidth (hookLayoutMax props) (gridGap props) (columnCount props) in
  try! template := gridTemplateForMdq (columnCount props) colWidth in
  try! sliced :=
    match userGrid props with
    | Some userGrid =>
        let defaultSubGrid := ["full-start"; "full-end"] in
        match getClosestValue userGrid (currentMdq props) (breakpoints props)
                (Some defaultSubGrid) with
        | None => throw (TypeError "undefined is not iterable")
        | Some lines =>
            let start := lines !! 0%nat in
            let end_ := lines !! 1%nat in
            try! cols :=
              subGrid template (currentMdq props) (columnCount props) start end_ in
            ret (cols, Some (toStr start +:+ " / " +:+ toStr end_))
        end
    | None => ret (template, None)
    end in
  ret {| gridTemplateColumns := join LF (value <$> sliced.1);
         gridColumn := sliced.2 |}.

Definition Hug (env : Env) (props : HugProps) : Result DivProps :=
  let theme := useTheme env in
  let hug := default HugConfig (config_hug theme) in
  let layoutMax := useToken env "sizes" (layoutMax hug) in
  let breakpoints := default [] (breakpoints_keys theme) in
  let currentMdq := useBreakpointValue env breakpoints in
  if negb (truthy currentMdq) then throw (Error msgBreakpoint)
  else
    let currentMdq := toStr currentMdq in
    let gapToken := getClosestValue (gaps hug) currentMdq breakpoints None in
    if negb (truthy gapToken) then throw (Error msgGapToken)
    else
      let gridGap := useToken env "sizes" (toStr gapToken) in
      let columnCount := getClosestValue (columns hug) currentMdq breakpoints None in
      if negb (truthy columnCount) then throw (Error msgColumns)
      else
        try! gridProps :=
          useHugGrid {| userGrid := hugGrid props;
                        (* narrowed: a truthy value is defined *)
                        columnCount := default 0 columnCount;
                        hookLayoutMax := layoutMax;
                        gridGap := gridGap;
                        currentMdq := currentMdq;
                        breakpoints := breakpoints |} in
        ret {| display := "grid"; gap := gridGap; grid := gridProps |}.

End HugGrid.

Import HugGrid.

(** ** Specification-side vocabulary *)

(** [lineAt template nm i]: the grid line named [nm] is the entry of index
    [i] of the template, and no earlier entry bears that name. *)
Definition lineAt (template : list Column) (nm : string) (i : nat) : Prop :=
  (name <$> template) !! i = Some nm ∧ nm ∉ take i (name <$> template).

(** A line name that no entry of the template bears; [undefined] is such a
    name. *)
Definition lineMissing (template : list Column) (line : option string) : Prop :=
  match line with
  | Some nm => nm ∉ name <$> template
  | None => True
  end.

(** The closing entry of a sliced template: a name without a size. *)
Definition closing (nm : string) : Column :=
  {| name := nm; value := "[" +:+ nm +:+ "]" |}.

(** The entry the backward scan of [getClosestValue] tests at position [i]
    of the order. *)
Definition probe {T : Type} (values : gmap string T) (order : list string)
    (i : nat) : option T :=
  values !! toStr (order !! i).

(** The example of the specification: order [a, b, c, d], values
    [{a: 1, c: 3}]. *)
Definition cascadeOrder : list string := ["a"; "b"; "c"; "d"].
Definition cascadeValues : gmap string Z := list_to_map [("a", 1); ("c", 3)].

(** The hook's arguments used in the examples: four columns, current
    breakpoint [md], and a user grid that declares [span] at [base]. *)
Definition exampleProps (span : list string) : HugGridHookProps := {|
  userGrid := Some (list_to_map [("base", span)]);
  columnCount := 4;
  hookLayoutMax := "80rem";
  gridGap := "1rem";
  currentMdq := "md";
  breakpoints := ["base"; "sm"; "md"; "lg"; "xl"]
|}.

(** The column width and the full template of [exampleProps]. *)
Definition exampleWidth : string := contentColWidth "80rem" "1rem" 4.
Definition exampleTemplate : list Column :=
  [ {| name := "full-start"; value := "[full-start] minmax(0, 1fr)" |};
    {| name := "content-start";
       value := "[content-start] minmax(0, " +:+ exampleWidth +:+ ")" |};
    {| name := "content-2";
       value := "[content-2] minmax(0, " +:+ exampleWidth +:+ ")" |};
    {| name := "content-3";
       value := "[content-3] minmax(0, " +:+ exampleWidth +:+ ")" |};
    {| name := "content-4";
       value := "[content-4] minmax(0, " +:+ exampleWidth +:+ ")" |};
    {| name := "content-end"; value := "[content-end] minmax(0, 1fr)" |};
    {| name := "full-end"; value := "[full-end]" |} ].

(** What a region resolves from its environment: the configuration, the
    breakpoint order, and the gap token and column count at a breakpoint. *)
Definition regionConfig (env : Env) : HugConfigProps :=
  default HugConfig (config_hug (useTheme env)).
Definition regionBreakpoints (env : Env) : list string :=
  default [] (breakpoints_keys (useTheme env)).
Definition resolvedGap (env : Env) (cur : string) : option string :=
  getClosestValue (gaps (regionConfig env)) cur (regionBreakpoints env) None.
Definition resolvedColumns (env : Env) (cur : string) : option Z :=
  getClosestValue (columns (regionConfig env)) cur (regionBreakpoints env) None.

(** An environment for the examples: the given configuration, Chakra's
    default breakpoint names, the given current breakpoint, and tokens
    resolved to a custom property of their scale. *)
Definition exampleEnv (config : HugConfigProps) (cur : option string) : Env := {|
  useTheme := {| config_hug := Some config;
                 breakpoints_keys := Some ["base"; "sm"; "md"; "lg"; "xl"; "2xl"] |};
  useBreakpointValue := λ _, cur;
  useToken := λ scale token, "var(--" +:+ scale +:+ "-" +:+ token +:+ ")"
|}.

(** Configurations of the examples: no gap at all, no column count at all,
    an empty gap token at [md], a column count of 0 at [md]. *)
Definition configNoGaps : HugConfigProps :=
  {| layoutMax := "container.xl"; gaps := ∅; columns := columns HugConfig |}.
Definition configNoColumns : HugConfigProps :=
  {| layoutMax := "container.xl"; gaps := gaps HugConfig; columns := ∅ |}.
Definition configEmptyGap : HugConfigProps :=
  {| layoutMax := "container.xl";
     gaps := list_to_map [("base", "4"); ("md", "")];
     columns := columns HugConfig |}.
Definition configZeroColumns : HugConfigProps :=
  {| layoutMax := "container.xl";
     gaps := gaps HugConfig;
     columns := list_to_map [("base", 4); ("md", 0)] |}.

(** The numbered content line [content-<k>] with its sized column. *)
Definition contentColumn (k : Z) (colWidth : string) : Column :=
  {| name := "content-" +:+ numberToString k;
     value := "[content-" +:+ numberToString k +:+ "] minmax(0, " +:+
              colWidth +:+ ")" |}.

(** The template of a positive column count, written out. *)
Definition builtTemplate (count : Z) (colWidth : string) : list Column :=
  [ {| name := "full-start"; value := "[full-start] minmax(0, 1fr)" |};
    {| name := "content-start";
       value := "[content-start] minmax(0, " +:+ colWidth +:+ ")" |} ]
  ++ ((λ k, contentColumn k colWidth) <$> seqZ 2 (count - 1))
  ++ [ {| name := "content-end"; value := "[content-end] minmax(0, 1fr)" |};
       {| name := "full-end"; value := "[full-end]" |} ].

(** The same hook arguments without a user grid. *)
Definition withoutUserGrid (props : HugGridHookProps) : HugGridHookProps :=
  {| userGrid := None;
     columnCount := columnCount props;
     hookLayoutMax := hookLayoutMax props;
     gridGap := gridGap props;
     currentMdq := currentMdq props;
     breakpoints := breakpoints props |}.

(** The column width the hook derives from its arguments. *)
Definition hookColWidth (props : HugGridHookProps) : string :=
  contentColWidth (hookLayoutMax props) (gridGap props) (columnCount props).

(** Hook arguments with eight columns and a user grid that declares the
    span [content-3] to [content-6] at [md]. *)
Definition numberedProps : HugGridHookProps := {|
  userGrid := Some (list_to_map [("md", ["content-3"; "content-6"])]);
  columnCount := 8;
  hookLayoutMax := "80rem";
  gridGap := "1rem";
  currentMdq := "md";
  breakpoints := ["base"; "sm"; "md"; "lg"]
|}.

(** An environment whose theme has no [config.hug]. *)
Definition plainEnv : Env := {|
  useTheme := {| config_hug := None;
                 breakpoints_keys := Some ["base"; "sm"; "md"; "lg"; "xl"; "2xl"] |};
  useBreakpointValue := λ _, Some "xl";
  useToken := λ scale token, "var(--" +:+ scale +:+ "-" +:+ token +:+ ")"
|}.

(** A partial configuration that only gives column counts, from [md] up. *)
Definition columnsFromMd : PartialHugConfigProps := {|
  partialLayoutMax := None;
  partialGaps := None;
  partialColumns := Some (list_to_map [("md", 6); ("lg", 12)])
|}.

(** The span a region falls back to. *)
Definition defaultSubGrid : list string := ["full-start"; "full-end"].

(** An environment whose theme carries the extension of the default
    configuration by [config]. *)
Definition extendedEnv (config : PartialHugConfigProps) (cur : option string) : Env :=
  exampleEnv (hug (extendHugConfig config)) cur.

(** * Properties *)

(** A closed decidable proposition, settled by evaluation. *)
Ltac decide_closed := apply (bool_decide_unpack _); vm_compute; exact I.

(** ** Array search *)

Section FindIndex.

Context {A : Type} (p : A → bool).

Lemma findIndexFrom_first (arr : list A) (i : Z) (k : nat) (x : A) :
  arr !! k = Some x → p x = true →
  (∀ j y, (j < k)%nat → arr !! j = Some y → p y = false) →
  findIndexFrom p arr i = i + Z.of_nat k.
Proof.
  revert i k. induction arr as [|a rest IH]; intros i k Hk Hp Hbefore.
  - done.
  - destruct k as [|k]; simpl in *.
    + injection Hk as ->. rewrite Hp. lia.
    + rewrite (Hbefore 0%nat a) by (lia || done).
      rewrite (IH (i + 1) k); [lia | done | done |].
      intros j y Hj Hy. apply (Hbefore (S j) y); [lia | done].
Qed.

Lemma findIndexFrom_none (arr : list A) (i : Z) :
  (∀ x, x ∈ arr → p x = false) → findIndexFrom p arr i = -1.
Proof.
  revert i. induction arr as [|a rest IH]; intros i Hall; simpl; [done|].
  rewrite Hall by left. apply IH. intros x Hx. apply Hall. by right.
Qed.

Lemma findIndexFrom_found (arr : list A) (i : Z) :
  0 ≤ i → findIndexFrom p arr i ≠ -1 →
  ∃ (k : nat) x, findIndexFrom p arr i = i + Z.of_nat k ∧
                 arr !! k = Some x ∧ p x = true.
Proof.
  revert i. induction arr as [|a rest IH]; intros i Hi Hne; simpl in *; [done|].
  destruct (p a) eqn:Hp.
  - exists 0%nat, a. split; [lia | by split].
  - destruct (IH (i + 1)) as (k & x & Hr & Hk & Hx); [lia | done |].
    exists (S k), x. split; [lia | by split].
Qed.

Lemma findIndexFrom_absent (arr : list A) (i : Z) :
  0 ≤ i → findIndexFrom p arr i = -1 → ∀ x, x ∈ arr → p x = false.
Proof.
  revert i. induction arr as [|a rest IH]; intros i Hi Hr x Hx; simpl in *.
  - by apply elem_of_nil in Hx.
  - destruct (p a) eqn:Hp; [lia|].
    apply elem_of_cons in Hx as [-> | Hx]; [done|].
    apply (IH (i + 1)); [lia | done | done].
Qed.

End FindIndex.

Lemma elem_of_keys {T : Type} (obj : gmap string T) (k : string) :
  k ∈ keys obj ↔ is_Some (obj !! k).
Proof.
  unfold keys. rewrite list_elem_of_fmap. split.
  - intros ([k' v] & -> & Hin). apply elem_of_map_to_list in Hin. by exists v.
  - intros [v Hv]. exists (k, v). split; [done|]. by apply elem_of_map_to_list.
Qed.

Lemma indexOf_keys_Some {T : Type} (obj : gmap string T) (k : string) (v : T) :
  obj !! k = Some v → (indexOf (keys obj) k =? -1) = false.
Proof.
  intros Hv. apply Z.eqb_neq. intros Hr.
  assert (k ∈ keys obj) as Hin by (apply elem_of_keys; by exists v).
  pose proof (findIndexFrom_absent _ _ 0 ltac:(lia) Hr k Hin) as Hk.
  by rewrite bool_decide_eq_false in Hk.
Qed.

Lemma indexOf_keys_None {T : Type} (obj : gmap string T) (k : string) :
  obj !! k = None → indexOf (keys obj) k = -1.
Proof.
  intros Hv. apply findIndexFrom_none. intros x Hx.
  apply bool_decide_eq_false. intros ->.
  apply elem_of_keys in Hx as [v Hx]. congruence.
Qed.

Lemma indexOf_absent (arr : list string) (x : string) :
  x ∉ arr → indexOf arr x = -1.
Proof.
  intros Hx. apply findIndexFrom_none. intros y Hy.
  apply bool_decide_eq_false. by intros ->.
Qed.

(** ** Closest-value resolution *)

Lemma at_of_nat {A : Type} (arr : list A) (i : nat) :
  at_ arr (Z.of_nat i) = arr !! i.
Proof.
  unfold at_. destruct (Z.ltb_spec (Z.of_nat i) 0) as [Hneg|_]; [lia|].
  by rewrite Nat2Z.id.
Qed.

Section ScanBack.

Context {T : Type} `{Truthy T}.
Implicit Types (values : gmap string T) (order : list string).

Lemma scanBack_unfold values order (i : nat) :
  scanBack values order (S i) =
    if truthy (probe values order i) then Z.of_nat i
    else scanBack values order i.
Proof. unfold probe. simpl. by rewrite at_of_nat. Qed.

Lemma scanBack_range values order (n : nat) :
  -1 ≤ scanBack values order n < Z.of_nat n.
Proof.
  induction n as [|n IH]; [simpl; lia|].
  rewrite scanBack_unfold. destruct (truthy _); lia.
Qed.

Lemma scanBack_truthy values order (n : nat) :
  scanBack values order n ≠ -1 →
  ∃ i : nat, scanBack values order n = Z.of_nat i ∧ (i < n)%nat ∧
             truthy (probe values order i) = true.
Proof.
  induction n as [|n IH]; [done|].
  rewrite scanBack_unfold. destruct (truthy _) eqn:Hp.
  - intros _. exists n. split; [done|]. split; [lia | done].
  - intros Hne. destruct (IH Hne) as (i & Hi & Hlt & Ht).
    exists i. split; [done|]. split; [lia | done].
Qed.

Lemma scanBack_hit values order (n j : nat) :
  (j < n)%nat → truthy (probe values order j) = true →
  (∀ j', (j < j' < n)%nat → truthy (probe values order j') = false) →
  scanBack values order n = Z.of_nat j.
Proof.
  induction n as [|n IH]; intros Hj Hp Hskip; [lia|].
  rewrite scanBack_unfold.
  destruct (decide (j = n)) as [->|Hne]; [by rewrite Hp|].
  rewrite Hskip by lia. apply IH; [lia | done |].
  intros j' Hj'. apply Hskip. lia.
Qed.

Lemma scanBack_exhausted values order (n : nat) :
  (∀ j, (j < n)%nat → truthy (probe values order j) = false) →
  scanBack values order n = -1.
Proof.
  induction n as [|n IH]; intros Hall; [done|].
  rewrite scanBack_unfold, Hall by lia. apply IH. intros j Hj. apply Hall. lia.
Qed.

(** Without an entry for the breakpoint itself, the function is its scan. *)
Lemma getClosestValue_scan values (current : string) order (fallback : option T) :
  values !! current = None →
  getClosestValue values current order fallback =
    let index := scanBack values order (Z.to_nat (indexOf order current + 1)) in
    if (index =? -1) then fallback else values !! toStr (at_ order index).
Proof.
  intros Hnone. unfold getClosestValue.
  rewrite (indexOf_keys_None _ _ Hnone). simpl.
  by destruct (_ =? -1).
Qed.

End ScanBack.

Lemma getClosestValue_exact {T : Type} `{Truthy T}
    (values : gmap string T) (current : string) (order : list string)
    (fallback : option T) (v : T) :
  values !! current = Some v →
  getClosestValue values current order fallback = Some v.
Proof.
  intros Hv. unfold getClosestValue.
  by rewrite (indexOf_keys_Some _ _ _ Hv).
Qed.

(** C1. Exact match precedence: when [values] has an entry for the current
    breakpoint, [getClosestValue] returns that entry, whatever its
    truthiness, whatever the order of the breakpoints and whatever the
    fallback. *)
Theorem exact_match_precedence {T : Type} `{Truthy T}
    (values : gmap string T) (current : string) (order : list string)
    (fallback : option T) (v : T) :
  values !! current = Some v →
  getClosestValue values current order fallback = Some v.
Proof. apply getClosestValue_exact. Qed.

(** A zero at the current breakpoint is returned, not the fallback 7 and not
    the 4 of the smaller breakpoint. *)
Lemma exact_match_precedence_witness :
  getClosestValue (list_to_map [("base", 4); ("md", 0)] : gmap string Z)
    "md" ["base"; "sm"; "md"; "lg"] (Some 7) = Some 0.
Proof. apply exact_match_precedence. reflexivity. Defined.

(** C2. Mobile-first cascade: when [values] has no entry for the current
    breakpoint, which stands at position [i] of the order, and position
    [j <= i] holds a truthy entry [v] while no position after [j] up to [i]
    holds a truthy entry, [getClosestValue] returns [v]. *)
Theorem mobile_first_cascade {T : Type} `{Truthy T}
    (values : gmap string T) (current : string) (order : list string)
    (fallback : option T) (i j : nat) (k : string) (v : T) :
  values !! current = None →
  indexOf order current = Z.of_nat i →
  (j ≤ i)%nat →
  order !! j = Some k → values !! k = Some v → truthy v = true →
  (∀ j' k', (j < j' ≤ i)%nat → order !! j' = Some k' →
            truthy (values !! k') = false) →
  getClosestValue values current order fallback = Some v.
Proof.
  intros Hnone Hi Hji Hk Hv Ht Hskip.
  rewrite getClosestValue_scan by done. simpl.
  rewrite Hi, Z2Nat.inj_add, Nat2Z.id by lia.
  replace (i + Z.to_nat 1)%nat with (S i) by lia.
  rewrite (scanBack_hit values order (S i) j).
  - destruct (Z.eqb_spec (Z.of_nat j) (-1)); [lia|].
    rewrite at_of_nat, Hk. simpl. done.
  - lia.
  - unfold probe. rewrite Hk. simpl. by rewrite Hv.
  - intros j' Hj'. unfold probe.
    destruct (order !! j') as [k'|] eqn:Hk'.
    + apply (Hskip j' k'); [lia | done].
    + apply lookup_ge_None in Hk'. apply lookup_lt_Some in Hk.
      assert (i < length order)%nat; [|lia].
      assert (indexOf order current ≠ -1) as Hfound by lia.
      destruct (findIndexFrom_found _ order 0 ltac:(lia) Hfound)
        as (n & x & Hn & Hx & _).
      change (findIndexFrom _ order 0) with (indexOf order current) in Hn.
      apply lookup_lt_Some in Hx. lia.
Qed.

(** With order [a, b, c, d] and values [{a: 1, c: 3}], resolving at [b]
    gives 1 and resolving at [d] gives 3. *)
Lemma mobile_first_cascade_witness :
  getClosestValue cascadeValues "b" cascadeOrder None = Some 1 ∧
  getClosestValue cascadeValues "d" cascadeOrder None = Some 3.
Proof.
  split.
  - apply (mobile_first_cascade _ "b" _ None 1 0 "a" 1);
      [reflexivity | reflexivity | lia | reflexivity | reflexivity | reflexivity |].
    intros j' k' Hj' Hk'. assert (j' = 1%nat) as -> by lia.
    injection Hk' as <-. reflexivity.
  - apply (mobile_first_cascade _ "d" _ None 3 2 "c" 3);
      [reflexivity | reflexivity | lia | reflexivity | reflexivity | reflexivity |].
    intros j' k' Hj' Hk'. assert (j' = 3%nat) as -> by lia.
    injection Hk' as <-. reflexivity.
Defined.

(** C3. Truthiness asymmetry: with no entry for the current breakpoint, a
    position [j] of the order whose entry [v] is falsy is skipped (the scan
    goes on below it), the scan never stops at [j], and the result is the
    fallback or a truthy entry; the same [v] is the result when its
    breakpoint is the current one. *)
Theorem falsy_entry_skipped_by_scan {T : Type} `{Truthy T}
    (values : gmap string T) (current : string) (order : list string)
    (fallback : option T) (j : nat) (k : string) (v : T) :
  values !! current = None →
  order !! j = Some k → values !! k = Some v → truthy v = false →
  scanBack values order (S j) = scanBack values order j
  ∧ scanBack values order (Z.to_nat (indexOf order current + 1)) ≠ Z.of_nat j
  ∧ (getClosestValue values current order fallback = fallback
     ∨ ∃ w, getClosestValue values current order fallback = Some w
            ∧ truthy w = true)
  ∧ getClosestValue values k order fallback = Some v.
Proof.
  intros Hnone Hk Hv Hfalsy.
  assert (truthy (probe values order j) = false) as Hprobe.
  { unfold probe. rewrite Hk. simpl. by rewrite Hv. }
  split; [by rewrite scanBack_unfold, Hprobe|].
  split.
  { intros Hstop.
    destruct (scanBack_truthy values order _ ltac:(rewrite Hstop; lia))
      as (i & Hi & _ & Ht).
    assert (i = j) as -> by lia. congruence. }
  split; [|by apply getClosestValue_exact].
  rewrite getClosestValue_scan by done. simpl.
  destruct (Z.eqb_spec (scanBack values order
                          (Z.to_nat (indexOf order current + 1))) (-1))
    as [_|Hfound]; [by left|].
  right. destruct (scanBack_truthy values order _ Hfound) as (i & -> & _ & Ht).
  rewrite at_of_nat. unfold probe in Ht.
  destruct (values !! toStr (order !! i)) as [w|]; [|done].
  by exists w.
Qed.

(** The zero at [sm] is skipped when resolving at [md], which gives the 4 of
    [base]; resolving at [sm] gives the zero. *)
Lemma falsy_entry_skipped_by_scan_witness :
  getClosestValue (list_to_map [("base", 4); ("sm", 0)] : gmap string Z)
    "md" ["base"; "sm"; "md"] None = Some 4
  ∧ getClosestValue (list_to_map [("base", 4); ("sm", 0)] : gmap string Z)
      "sm" ["base"; "sm"; "md"] None = Some 0.
Proof.
  destruct (falsy_entry_skipped_by_scan
              (list_to_map [("base", 4); ("sm", 0)] : gmap string Z)
              "md" ["base"; "sm"; "md"] None 1 "sm" 0)
    as (_ & _ & _ & Hexact); [reflexivity ..|].
  split; [reflexivity | exact Hexact].
Defined.

(** C7, as amended. When [values] has no entry for the current breakpoint
    and the current breakpoint does not occur in the order,
    [getClosestValue] returns the fallback ([undefined] without one). *)
Theorem current_absent_from_order {T : Type} `{Truthy T}
    (values : gmap string T) (current : string) (order : list string)
    (fallback : option T) :
  values !! current = None → current ∉ order →
  getClosestValue values current order fallback = fallback.
Proof.
  intros Hnone Habsent. rewrite getClosestValue_scan by done.
  by rewrite (indexOf_absent _ _ Habsent).
Qed.

Lemma current_absent_from_order_witness :
  getClosestValue (list_to_map [("base", 4)] : gmap string Z)
    "2xl" ["base"; "sm"; "md"] (Some 12) = Some 12
  ∧ getClosestValue (list_to_map [("base", 4)] : gmap string Z)
      "2xl" ["base"; "sm"; "md"] None = None.
Proof.
  split; apply current_absent_from_order; first [reflexivity | decide_closed].
Defined.

(** Without the first premise the statement fails: a breakpoint outside the
    order that has an entry of its own resolves to that entry, not to the
    fallback. *)
Lemma current_absent_from_order_counterexample :
("2xl" ∉ ["base"; "sm"; "md"])
  ∧ getClosestValue (list_to_map [("base", 4); ("2xl", 16)] : gmap string Z)
      "2xl" ["base"; "sm"; "md"] (Some 12) = Some 16
  ∧ getClosestValue (list_to_map [("base", 4); ("2xl", 16)] : gmap string Z)
      "2xl" ["base"; "sm"; "md"] (Some 12) ≠ Some 12
  ∧ getClosestValue (list_to_map [("base", 4); ("2xl", 16)] : gmap string Z)
      "2xl" ["base"; "sm"; "md"] None ≠ None.
Proof.
  split; [decide_closed|].
  split; [reflexivity|]. split; vm_compute; discriminate.
Qed.

(** ** Grid template construction *)

(** C4. Template length and name order: for a column count of at least 1
    the template is built (nothing is raised), has [columnCount + 3]
    entries, and its names are [full-start], [content-start], [content-2] to
    [content-<columnCount>], [content-end], [full-end], in that order. *)
Theorem template_length_and_names (columnCount : Z) (colWidth : string) :
  1 ≤ columnCount →
  ∃ template,
    gridTemplateForMdq columnCount colWidth = inr template
    ∧ Z.of_nat (length template) = columnCount + 3
    ∧ name <$> template =
        ["full-start"; "content-start"]
        ++ ((λ k, "content-" +:+ numberToString k) <$> seqZ 2 (columnCount - 1))
        ++ ["content-end"; "full-end"].
Proof.
  intros Hpos. unfold gridTemplateForMdq, contentColumns, arrayIndices.
  destruct (Z.ltb_spec (columnCount - 1) 0) as [Hneg|_]; [lia|].
  eexists. split; [reflexivity|]. split.
  - rewrite !length_app, !length_fmap, length_seq. simpl. lia.
  - rewrite !fmap_app. simpl. do 2 f_equal. f_equal.
    unfold seqZ. rewrite <- !list_fmap_compose.
    apply list_fmap_ext. intros _ x _. simpl. done.
Qed.

(** One column: no numbered content line, four entries. *)
Lemma template_length_and_names_witness :
  ∃ template,
    gridTemplateForMdq 1 "10rem" = inr template
    ∧ Z.of_nat (length template) = 1 + 3
    ∧ name <$> template =
        ["full-start"; "content-start"]
        ++ ((λ k, "content-" +:+ numberToString k) <$> seqZ 2 (1 - 1))
        ++ ["content-end"; "full-end"].
Proof. apply template_length_and_names. lia. Defined.

Example template_names_1 :
  (try! template := gridTemplateForMdq 1 "10rem" in ret (name <$> template)) =
    inr ["full-start"; "content-start"; "content-end"; "full-end"].
Proof. reflexivity. Qed.

Example template_no_column :
  gridTemplateForMdq 0 "10rem" = inl (RangeError "Invalid array length").
Proof. reflexivity. Qed.

Example template_names_4 :
  (try! template := gridTemplateForMdq 4 "10rem" in ret (name <$> template)) =
    inr ["full-start"; "content-start"; "content-2"; "content-3"; "content-4";
         "content-end"; "full-end"].
Proof. reflexivity. Qed.

(** ** Subgrid slicing *)

Lemma slice_nat {A : Type} (arr : list A) (i j : nat) :
  (i ≤ length arr)%nat → (j ≤ length arr)%nat →
  slice arr (Z.of_nat i) (Z.of_nat j) = take (j - i) (drop i arr).
Proof.
  intros Hi Hj. unfold slice, relIndex.
  destruct (Z.ltb_spec (Z.of_nat i) 0); [lia|].
  destruct (Z.ltb_spec (Z.of_nat j) 0); [lia|].
  rewrite !Z.min_l by lia. rewrite Nat2Z.id. f_equal. lia.
Qed.

Lemma lineAt_lookup (template : list Column) (nm : string) (i : nat) :
  lineAt template nm i →
  ∃ col, template !! i = Some col ∧ name col = nm.
Proof.
  intros [Hi _]. rewrite list_lookup_fmap in Hi.
  destruct (template !! i) as [col|]; [|done].
  exists col. split; [done|]. simpl in Hi. congruence.
Qed.

Lemma lineAt_findIndex (template : list Column) (nm : string) (i : nat) :
  lineAt template nm i →
  findIndex (λ col, bool_decide (Some (name col) = Some nm)) template
    = Z.of_nat i.
Proof.
  intros Hat. destruct (lineAt_lookup _ _ _ Hat) as (col & Hcol & Hname).
  destruct Hat as [_ Hfirst]. unfold findIndex.
  rewrite (findIndexFrom_first _ template 0 i col); [lia | done | |].
  - apply bool_decide_eq_true. by rewrite Hname.
  - intros j y Hj Hy. apply bool_decide_eq_false. intros [= Heq].
    apply Hfirst. apply list_elem_of_lookup. exists j.
    rewrite lookup_take_lt by done. by rewrite list_lookup_fmap, Hy, <- Heq.
Qed.

Lemma lineMissing_findIndex (template : list Column) (line : option string) :
  lineMissing template line →
  findIndex (λ col, bool_decide (Some (name col) = line)) template = -1.
Proof.
  intros Hmiss. apply findIndexFrom_none. intros col Hcol.
  apply bool_decide_eq_false. intros <-. simpl in Hmiss.
  apply Hmiss. apply list_elem_of_fmap. by exists col.
Qed.

Lemma findIndex_lineMissing (template : list Column) (line : option string) :
  findIndex (λ col, bool_decide (Some (name col) = line)) template = -1 →
  lineMissing template line.
Proof.
  intros Hnone. destruct line as [nm|]; [|done]. simpl.
  intros (col & -> & Hcol)%list_elem_of_fmap.
  pose proof (findIndexFrom_absent _ _ 0 ltac:(lia) Hnone col Hcol) as Hp.
  by rewrite bool_decide_eq_false in Hp.
Qed.

(** With a user grid whose resolved value is [lines], the hook returns the
    sliced columns, joined, and the span made of the first two lines. *)
Lemma useHugGrid_userGrid (props : HugGridHookProps)
    (grid : gmap string (list string)) (lines : list string)
    (template : list Column) :
  userGrid props = Some grid →
  getClosestValue grid (currentMdq props) (breakpoints props)
    (Some ["full-start"; "full-end"]) = Some lines →
  gridTemplateForMdq (columnCount props)
    (contentColWidth (hookLayoutMax props) (gridGap props) (columnCount props))
    = inr template →
  useHugGrid props =
    try! cols := subGrid template (currentMdq props) (columnCount props)
                   (lines !! 0%nat) (lines !! 1%nat) in
    ret {| gridTemplateColumns := join LF (value <$> cols);
           gridColumn := Some (toStr (lines !! 0%nat) +:+ " / " +:+
                               toStr (lines !! 1%nat)) |}.
Proof.
  intros Hgrid Hlines Htemplate. unfold useHugGrid.
  rewrite Htemplate, Hgrid. simpl. rewrite Hlines. simpl.
  by destruct (subGrid _ _ _ _ _).
Qed.

Lemma subGrid_found (template : list Column) (currentMdq : string)
    (columnCount : Z) (start end_ : string) (i j : nat) :
  lineAt template start i → lineAt template end_ j →
  subGrid template currentMdq columnCount (Some start) (Some end_) =
    inr (slice template (Z.of_nat i) (Z.of_nat j) ++ [closing end_]).
Proof.
  intros Hstart Hend. unfold subGrid.
  rewrite (lineAt_findIndex _ _ _ Hstart), (lineAt_findIndex _ _ _ Hend).
  destruct (Z.eqb_spec (Z.of_nat i) (-1)); [lia|].
  destruct (Z.eqb_spec (Z.of_nat j) (-1)); [lia|]. simpl.
  destruct (lineAt_lookup _ _ _ Hend) as (col & Hcol & <-).
  by rewrite at_of_nat, Hcol.
Qed.

(** C5. Slice sub-sequence: when the start line is at index [i] of the
    template and the end line at a later index [j], slicing returns the
    entries of index [i] (included) to [j] (excluded) followed by one entry
    that bears the end line's name and no size; for a user grid that
    resolves to these two lines the hook returns these columns, joined, and
    the span ["<start> / <end>"]. *)
Theorem slice_subsequence (template : list Column) (cur : string) (count : Z)
    (start end_ : string) (i j : nat) :
  lineAt template start i → lineAt template end_ j → (i < j)%nat →
  let sliced := take (j - i) (drop i template) ++ [closing end_] in
  subGrid template cur count (Some start) (Some end_) = inr sliced
  ∧ ∀ props grid lines,
      userGrid props = Some grid →
      getClosestValue grid (currentMdq props) (breakpoints props)
        (Some ["full-start"; "full-end"]) = Some lines →
      lines !! 0%nat = Some start → lines !! 1%nat = Some end_ →
      currentMdq props = cur → columnCount props = count →
      gridTemplateForMdq count
        (contentColWidth (hookLayoutMax props) (gridGap props) count)
        = inr template →
      useHugGrid props =
        inr {| gridTemplateColumns := join LF (value <$> sliced);
               gridColumn := Some (start +:+ " / " +:+ end_) |}.
Proof.
  intros Hstart Hend Hlt sliced.
  assert (subGrid template cur count (Some start) (Some end_) = inr sliced)
    as Hsub.
  { rewrite (subGrid_found _ _ _ _ _ i j) by done. unfold sliced.
    destruct (lineAt_lookup _ _ _ Hstart) as (? & ?%lookup_lt_Some & _).
    destruct (lineAt_lookup _ _ _ Hend) as (? & ?%lookup_lt_Some & _).
    by rewrite slice_nat by lia. }
  split; [done|].
  intros props grid lines Hgrid Hlines H0 H1 <- <- Htemplate.
  rewrite (useHugGrid_userGrid props grid lines template) by done.
  by rewrite H0, H1, Hsub.
Qed.

(** Four columns, span [content-start] to [content-3]. *)
Lemma slice_subsequence_witness :
  lineAt exampleTemplate "content-start" 1
  ∧ lineAt exampleTemplate "content-3" 3
  ∧ useHugGrid (exampleProps ["content-start"; "content-3"]) =
      inr {| gridTemplateColumns :=
               join LF [ "[content-start] minmax(0, " +:+ exampleWidth +:+ ")";
                         "[content-2] minmax(0, " +:+ exampleWidth +:+ ")";
                         "[content-3]" ];
             gridColumn := Some "content-start / content-3" |}.
Proof.
  assert (lineAt exampleTemplate "content-start" 1) as Hstart
    by (split; [reflexivity | decide_closed]).
  assert (lineAt exampleTemplate "content-3" 3) as Hend
    by (split; [reflexivity | decide_closed]).
  split; [exact Hstart|]. split; [exact Hend|].
  apply (proj2 (slice_subsequence exampleTemplate "md" 4
                  "content-start" "content-3" 1 3 Hstart Hend ltac:(lia))
               (exampleProps ["content-start"; "content-3"])
               (list_to_map [("base", ["content-start"; "content-3"])])
               ["content-start"; "content-3"]);
    reflexivity.
Defined.

(** C6. Unknown line name: when the start or the end of the user's span is
    not a line of the template, slicing raises an error whose message names
    a missing line of the span (the start when it is missing, else the end),
    the current breakpoint, the column count and every line name of the
    template in order; the hook raises it too and returns no template. *)
Theorem unknown_line_fails (template : list Column) (cur : string) (count : Z)
    (start end_ : option string) :
  lineMissing template start ∨ lineMissing template end_ →
  ∃ line,
    lineMissing template line ∧ (line = start ∨ line = end_)
    ∧ (lineMissing template start → line = start)
    ∧ let message :=
        "🤗 Human Universal Gridder" +:+ LF +:+ LF +:+
        "The grid line `" +:+ toStr line +:+ "` does not exist in the " +:+
        cur +:+ " media query which has " +:+ numberToString count +:+
        " columns." +:+ LF +:+
        "Grid lines for " +:+ cur +:+ ": " +:+
        join " | " (name <$> template) in
      subGrid template cur count start end_ = inl (Error message)
      ∧ ∀ props grid lines,
          userGrid props = Some grid →
          getClosestValue grid (currentMdq props) (breakpoints props)
            (Some ["full-start"; "full-end"]) = Some lines →
          lines !! 0%nat = start → lines !! 1%nat = end_ →
          currentMdq props = cur → columnCount props = count →
          gridTemplateForMdq count
            (contentColWidth (hookLayoutMax props) (gridGap props) count)
            = inr template →
          useHugGrid props = inl (Error message).
Proof.
  intros Hmissing.
  set (startIdx :=
         findIndex (λ col, bool_decide (Some (name col) = start)) template).
  exists (if (startIdx =? -1) then start else end_).
  assert (subGrid template cur count start end_ =
            inl (Error (msgLine (if (startIdx =? -1) then start else end_)
                          cur count (name <$> template)))) as Hsub.
  { unfold subGrid. fold startIdx.
    destruct (Z.eqb_spec startIdx (-1)) as [Hs|Hs]; [done|].
    destruct Hmissing as [Hm|Hm].
    - by apply lineMissing_findIndex in Hm.
    - by rewrite (lineMissing_findIndex _ _ Hm). }
  destruct (Z.eqb_spec startIdx (-1)) as [Hs|Hs].
  - apply findIndex_lineMissing in Hs.
    split; [done|]. split; [by left|]. split; [done|]. split; [exact Hsub|].
    intros props grid lines Hgrid Hlines H0 H1 <- <- Htemplate.
    rewrite (useHugGrid_userGrid props grid lines template) by done.
    by rewrite H0, H1, Hsub.
  - assert (¬ lineMissing template start) as Hpresent.
    { intros Hm. by apply lineMissing_findIndex in Hm. }
    destruct Hmissing as [Hm|Hm]; [done|].
    split; [done|]. split; [by right|]. split; [done|]. split; [exact Hsub|].
    intros props grid lines Hgrid Hlines H0 H1 <- <- Htemplate.
    rewrite (useHugGrid_userGrid props grid lines template) by done.
    by rewrite H0, H1, Hsub.
Qed.

(** The line [content-8] does not exist with four columns. *)
Lemma unknown_line_fails_witness :
  lineMissing exampleTemplate (Some "content-8")
  ∧ useHugGrid (exampleProps ["content-8"; "content-end"]) =
      inl (Error
             ("🤗 Human Universal Gridder" +:+ LF +:+ LF +:+
              "The grid line `content-8` does not exist in the md media query which has 4 columns."
              +:+ LF +:+
              "Grid lines for md: full-start | content-start | content-2 | content-3 | content-4 | content-end | full-end")).
Proof.
  assert (lineMissing exampleTemplate (Some "content-8")) as Hmissing
    by (simpl; decide_closed).
  split; [exact Hmissing|].
  destruct (unknown_line_fails exampleTemplate "md" 4
              (Some "content-8") (Some "content-end") (or_introl Hmissing))
    as (line & _ & _ & Hline & _ & Hhook).
  rewrite (Hline Hmissing) in Hhook.
  apply (Hhook (exampleProps ["content-8"; "content-end"])
               (list_to_map [("base", ["content-8"; "content-end"])])
               ["content-8"; "content-end"]);
    reflexivity.
Defined.

(** C10. Reversed span: when both lines are in the template and the start
    line is at or after the end line, slicing raises nothing and returns the
    single entry that bears the end line's name and no size; the hook
    returns that one column and the span ["<start> / <end>"]. *)
Theorem reversed_span_no_error (template : list Column) (cur : string)
    (count : Z) (start end_ : string) (i j : nat) :
  lineAt template start i → lineAt template end_ j → (j ≤ i)%nat →
  subGrid template cur count (Some start) (Some end_) = inr [closing end_]
  ∧ ∀ props grid lines,
      userGrid props = Some grid →
      getClosestValue grid (currentMdq props) (breakpoints props)
        (Some ["full-start"; "full-end"]) = Some lines →
      lines !! 0%nat = Some start → lines !! 1%nat = Some end_ →
      currentMdq props = cur → columnCount props = count →
      gridTemplateForMdq count
        (contentColWidth (hookLayoutMax props) (gridGap props) count)
        = inr template →
      useHugGrid props =
        inr {| gridTemplateColumns := "[" +:+ end_ +:+ "]";
               gridColumn := Some (start +:+ " / " +:+ end_) |}.
Proof.
  intros Hstart Hend Hle.
  assert (subGrid template cur count (Some start) (Some end_)
            = inr [closing end_]) as Hsub.
  { rewrite (subGrid_found _ _ _ _ _ i j) by done.
    destruct (lineAt_lookup _ _ _ Hstart) as (? & ?%lookup_lt_Some & _).
    destruct (lineAt_lookup _ _ _ Hend) as (? & ?%lookup_lt_Some & _).
    rewrite slice_nat by lia.
    by replace (j - i)%nat with 0%nat by lia. }
  split; [done|].
  intros props grid lines Hgrid Hlines H0 H1 <- <- Htemplate.
  rewrite (useHugGrid_userGrid props grid lines template) by done.
  by rewrite H0, H1, Hsub.
Qed.

(** The span [content-end] to [content-start] gives the single line
    [content-start]. *)
Lemma reversed_span_no_error_witness :
  lineAt exampleTemplate "content-end" 5
  ∧ lineAt exampleTemplate "content-start" 1
  ∧ useHugGrid (exampleProps ["content-end"; "content-start"]) =
      inr {| gridTemplateColumns := "[content-start]";
             gridColumn := Some "content-end / content-start" |}.
Proof.
  assert (lineAt exampleTemplate "content-end" 5) as Hstart
    by (split; [reflexivity | decide_closed]).
  assert (lineAt exampleTemplate "content-start" 1) as Hend
    by (split; [reflexivity | decide_closed]).
  split; [exact Hstart|]. split; [exact Hend|].
  apply (proj2 (reversed_span_no_error exampleTemplate "md" 4
                  "content-end" "content-start" 5 1 Hstart Hend ltac:(lia))
               (exampleProps ["content-end"; "content-start"])
               (list_to_map [("base", ["content-end"; "content-start"])])
               ["content-end"; "content-start"]);
    reflexivity.
Defined.

(** ** Region resolution *)

Lemma truthy_current (cur : string) : cur ≠ "" → truthy (Some cur) = true.
Proof. by destruct cur. Qed.

(** The component, once the current breakpoint is known. *)
Lemma Hug_current (env : Env) (props : HugProps) (cur : string) :
  useBreakpointValue env (regionBreakpoints env) = Some cur → cur ≠ "" →
  Hug env props =
    if negb (truthy (resolvedGap env cur)) then throw (Error msgGapToken)
    else if negb (truthy (resolvedColumns env cur)) then throw (Error msgColumns)
    else
      let gridGap := useToken env "sizes" (toStr (resolvedGap env cur)) in
      try! gridProps :=
        useHugGrid {| userGrid := hugGrid props;
                      columnCount := default 0 (resolvedColumns env cur);
                      hookLayoutMax :=
                        useToken env "sizes" (layoutMax (regionConfig env));
                      gridGap := gridGap;
                      currentMdq := cur;
                      breakpoints := regionBreakpoints env |} in
      ret {| display := "grid"; gap := gridGap; grid := gridProps |}.
Proof.
  intros Hcur Hne. unfold Hug.
  change (default [] (breakpoints_keys (useTheme env)))
    with (regionBreakpoints env).
  rewrite Hcur, (truthy_current _ Hne). reflexivity.
Qed.

(** C8. Required structural values: with a current breakpoint, when the gap
    token resolves to nothing the component raises the error that names the
    gap token, when the column count resolves to nothing (and the gap token
    passed its check) it raises the error that names the number of columns;
    in both cases an error is raised and nothing is rendered. *)
Theorem required_values_escalate (env : Env) (props : HugProps) (cur : string) :
  useBreakpointValue env (regionBreakpoints env) = Some cur → cur ≠ "" →
  (resolvedGap env cur = None → Hug env props = inl (Error msgGapToken))
  ∧ (truthy (resolvedGap env cur) = true → resolvedColumns env cur = None →
     Hug env props = inl (Error msgColumns))
  ∧ (resolvedGap env cur = None ∨ resolvedColumns env cur = None →
     ∃ message, Hug env props = inl (Error message)
                ∧ (message = msgGapToken ∨ message = msgColumns)).
Proof.
  intros Hcur Hne. rewrite (Hug_current env props cur Hcur Hne).
  split; [by intros ->|]. split; [by intros -> ->|].
  intros [->| ->].
  - exists msgGapToken. split; [done | by left].
  - destruct (truthy (resolvedGap env cur)); simpl.
    + exists msgColumns. split; [done | by right].
    + exists msgGapToken. split; [done | by left].
Qed.

(** No gap at all; then gaps but no column count. *)
Lemma required_values_escalate_witness :
  Hug (exampleEnv configNoGaps (Some "md")) {| hugGrid := None |}
    = inl (Error msgGapToken)
  ∧ Hug (exampleEnv configNoColumns (Some "md")) {| hugGrid := None |}
    = inl (Error msgColumns).
Proof.
  split.
  - apply (proj1 (required_values_escalate
                    (exampleEnv configNoGaps (Some "md")) {| hugGrid := None |}
                    "md" eq_refl ltac:(discriminate))).
    reflexivity.
  - apply (proj1 (proj2 (required_values_escalate
                           (exampleEnv configNoColumns (Some "md"))
                           {| hugGrid := None |}
                           "md" eq_refl ltac:(discriminate))));
      reflexivity.
Defined.

(** C9. Falsy structural values: with a current breakpoint, a gap token
    that resolves to the empty string raises the error of the gap token and
    a column count that resolves to 0 (the gap token having passed its
    check) raises the error of the number of columns, also when the value
    is the entry of the current breakpoint itself. *)
Theorem falsy_values_rejected (env : Env) (props : HugProps) (cur : string) :
  useBreakpointValue env (regionBreakpoints env) = Some cur → cur ≠ "" →
  (resolvedGap env cur = Some "" → Hug env props = inl (Error msgGapToken))
  ∧ (truthy (resolvedGap env cur) = true → resolvedColumns env cur = Some 0 →
     Hug env props = inl (Error msgColumns))
  ∧ (gaps (regionConfig env) !! cur = Some "" →
     resolvedGap env cur = Some "" ∧ Hug env props = inl (Error msgGapToken))
  ∧ (truthy (resolvedGap env cur) = true →
     columns (regionConfig env) !! cur = Some 0 →
     resolvedColumns env cur = Some 0 ∧ Hug env props = inl (Error msgColumns)).
Proof.
  intros Hcur Hne. rewrite (Hug_current env props cur Hcur Hne).
  split; [by intros ->|]. split; [by intros -> ->|].
  split.
  - intros Hexact.
    assert (resolvedGap env cur = Some "") as ->
      by (by apply getClosestValue_exact).
    done.
  - intros Hgap Hexact.
    assert (resolvedColumns env cur = Some 0) as ->
      by (by apply getClosestValue_exact).
    by rewrite Hgap.
Qed.

(** An empty gap token at [md]; then a column count of 0 at [md]. *)
Lemma falsy_values_rejected_witness :
  Hug (exampleEnv configEmptyGap (Some "md")) {| hugGrid := None |}
    = inl (Error msgGapToken)
  ∧ Hug (exampleEnv configZeroColumns (Some "md")) {| hugGrid := None |}
    = inl (Error msgColumns).
Proof.
  split.
  - apply (proj1 (proj2 (proj2 (falsy_values_rejected
                    (exampleEnv configEmptyGap (Some "md")) {| hugGrid := None |}
                    "md" eq_refl ltac:(discriminate))))).
    reflexivity.
  - apply (proj2 (proj2 (proj2 (falsy_values_rejected
                    (exampleEnv configZeroColumns (Some "md"))
                    {| hugGrid := None |}
                    "md" eq_refl ltac:(discriminate)))));
      reflexivity.
Defined.

(** * Further properties of the code *)

(** ** Closest-value resolution, continued *)

Lemma indexOf_elem (arr : list string) (x : string) :
  x ∈ arr →
  ∃ i : nat, indexOf arr x = Z.of_nat i ∧ arr !! i = Some x.
Proof.
  intros Hin.
  assert (indexOf arr x ≠ -1) as Hfound.
  { intros Hnone.
    pose proof (findIndexFrom_absent _ _ 0 ltac:(lia) Hnone x Hin) as Hp.
    by rewrite bool_decide_eq_false in Hp. }
  destruct (findIndexFrom_found _ arr 0 ltac:(lia) Hfound)
    as (i & y & Hi & Hy & Hp).
  apply bool_decide_eq_true in Hp as ->.
  exists i. split; [|done].
  unfold indexOf, findIndex. rewrite Hi. lia.
Qed.

Lemma indexOf_lookup (arr : list string) (x : string) (i : nat) :
  indexOf arr x = Z.of_nat i → arr !! i = Some x.
Proof.
  intros Hi.
  assert (indexOf arr x ≠ -1) as Hfound by lia.
  destruct (findIndexFrom_found _ arr 0 ltac:(lia) Hfound)
    as (k & y & Hk & Hy & Hp).
  apply bool_decide_eq_true in Hp as ->.
  change (findIndexFrom _ arr 0) with (indexOf arr x) in Hk.
  by replace i with k by lia.
Qed.

Section ScanBackMore.

Context {T : Type} `{Truthy T}.
Implicit Types (values : gmap string T) (order : list string).

Lemma scanBack_none_inv values order (n : nat) :
  scanBack values order n = -1 →
  ∀ j, (j < n)%nat → truthy (probe values order j) = false.
Proof.
  induction n as [|n IH]; intros Hnone j Hj; [lia|].
  rewrite scanBack_unfold in Hnone.
  destruct (truthy (probe values order n)) eqn:Hp; [lia|].
  destruct (decide (j = n)) as [->|Hne]; [done|].
  apply IH; [done | lia].
Qed.

Lemma scanBack_ext values1 values2 order (n : nat) :
  (∀ j, (j < n)%nat → probe values1 order j = probe values2 order j) →
  scanBack values1 order n = scanBack values2 order n.
Proof.
  induction n as [|n IH]; intros Hagree; [done|].
  rewrite !scanBack_unfold, Hagree by lia.
  rewrite IH; [done|]. intros j Hj. apply Hagree. lia.
Qed.

(** The value found by the scan is an entry of the mapping, and a truthy
    one. *)
Lemma getClosestValue_found values (current : string) order
    (fallback : option T) :
  values !! current = None →
  scanBack values order (Z.to_nat (indexOf order current + 1)) ≠ -1 →
  ∃ (i : nat) k w,
    order !! i = Some k ∧ values !! k = Some w ∧ truthy w = true
    ∧ getClosestValue values current order fallback = Some w.
Proof.
  intros Hnone Hfound. rewrite getClosestValue_scan by done. simpl.
  destruct (scanBack_truthy values order _ Hfound) as (i & Hi & Hlt & Ht).
  rewrite Hi. destruct (Z.eqb_spec (Z.of_nat i) (-1)); [lia|].
  rewrite at_of_nat. unfold probe in Ht.
  destruct (order !! i) as [k|] eqn:Hk.
  - simpl in *. destruct (values !! k) as [w|] eqn:Hw; [|done].
    by exists i, k, w.
  - exfalso. apply lookup_ge_None in Hk.
    destruct (decide (indexOf order current = -1)) as [Hno|Hyes].
    + rewrite Hno in Hlt. simpl in Hlt. lia.
    + destruct (findIndexFrom_found _ order 0 ltac:(lia) Hyes)
        as (m & x & Hn & Hx & _).
      change (findIndexFrom _ order 0) with (indexOf order current) in Hn.
      apply lookup_lt_Some in Hx. lia.
Qed.

End ScanBackMore.

Lemma getClosestValue_no_match {T : Type} `{Truthy T}
    (values : gmap string T) (current : string) (order : list string)
    (fallback : option T) :
  values !! current = None →
  (∀ (j : nat) k v, Z.of_nat j ≤ indexOf order current →
     order !! j = Some k → values !! k = Some v → truthy v = false) →
  getClosestValue values current order fallback = fallback.
Proof.
  intros Hnone Hfalsy. rewrite getClosestValue_scan by done. simpl.
  rewrite scanBack_exhausted; [done|].
  intros j Hj. unfold probe.
  destruct (order !! j) as [k|] eqn:Hk; simpl.
  - destruct (values !! k) as [v|] eqn:Hv; [|done].
    apply (Hfalsy j k v); [lia | done | done].
  - exfalso. apply lookup_ge_None in Hk.
    destruct (decide (indexOf order current = -1)) as [Hno|Hyes].
    + rewrite Hno in Hj. simpl in Hj. lia.
    + destruct (findIndexFrom_found _ order 0 ltac:(lia) Hyes)
        as (n & x & Hn & Hx & _).
      change (findIndexFrom _ order 0) with (indexOf order current) in Hn.
      apply lookup_lt_Some in Hx. lia.
Qed.

(** X1. No match: when the mapping has no entry for the current breakpoint
    and no truthy entry at any position of the order up to the current
    breakpoint's, the result is the fallback ([undefined] without one). *)
Theorem no_match_returns_fallback {T : Type} `{Truthy T}
    (values : gmap string T) (current : string) (order : list string)
    (fallback : option T) :
  values !! current = None →
  (∀ (j : nat) k v, Z.of_nat j ≤ indexOf order current →
     order !! j = Some k → values !! k = Some v → truthy v = false) →
  getClosestValue values current order fallback = fallback.
Proof. apply getClosestValue_no_match. Qed.

(** An empty mapping resolves to the fallback at [md]. *)
Lemma no_match_returns_fallback_witness :
  getClosestValue (∅ : gmap string Z) "md" ["base"; "sm"; "md"] (Some 12)
    = Some 12.
Proof.
  apply no_match_returns_fallback; [reflexivity|].
  intros j k v _ _ Hv. rewrite lookup_empty in Hv. discriminate.
Defined.

(** X2. Larger breakpoints are never consulted: two mappings that agree on
    the breakpoints of the order up to the current one (included) resolve
    to the same value, whatever they hold at larger breakpoints. *)
Theorem larger_breakpoints_ignored {T : Type} `{Truthy T}
    (values1 values2 : gmap string T) (current : string)
    (order : list string) (fallback : option T) (i : nat) :
  indexOf order current = Z.of_nat i →
  (∀ k, k ∈ take (S i) order → values1 !! k = values2 !! k) →
  getClosestValue values1 current order fallback
    = getClosestValue values2 current order fallback.
Proof.
  intros Hi Hagree.
  assert (order !! i = Some current) as Hcur by by apply indexOf_lookup.
  assert (∀ j k, (j ≤ i)%nat → order !! j = Some k →
                 values1 !! k = values2 !! k) as Hpos.
  { intros j k Hj Hk. apply Hagree. apply list_elem_of_lookup. exists j.
    by rewrite lookup_take_lt by lia. }
  assert (values1 !! current = values2 !! current) as Hsame
    by (by apply (Hpos i)).
  destruct (values2 !! current) as [v|] eqn:Hv.
  - by rewrite !(getClosestValue_exact _ _ _ _ v).
  - rewrite !getClosestValue_scan by done. simpl.
    rewrite Hi, Z2Nat.inj_add, Nat2Z.id by lia.
    replace (i + Z.to_nat 1)%nat with (S i) by lia.
    assert (∀ j, (j < S i)%nat →
                 probe values1 order j = probe values2 order j) as Hprobe.
    { intros j Hj. unfold probe.
      destruct (order !! j) as [k|] eqn:Hk.
      - apply (Hpos j k); [lia | done].
      - apply lookup_ge_None in Hk. apply lookup_lt_Some in Hcur. lia. }
    rewrite (scanBack_ext values1 values2 order (S i) Hprobe).
    destruct (decide (scanBack values2 order (S i) = -1)) as [Hnone|Hne].
    + by rewrite Hnone.
    + destruct (scanBack_truthy values2 order (S i) Hne) as (j & Hj & Hlt & _).
      rewrite Hj. destruct (Z.eqb_spec (Z.of_nat j) (-1)); [lia|].
      rewrite at_of_nat. apply (Hprobe j Hlt).
Qed.

(** The entries at [lg] differ, the resolution at [md] does not. *)
Lemma larger_breakpoints_ignored_witness :
  getClosestValue (list_to_map [("base", 4); ("lg", 12)] : gmap string Z)
    "md" ["base"; "sm"; "md"; "lg"] None
  = getClosestValue (list_to_map [("base", 4); ("lg", 16)] : gmap string Z)
      "md" ["base"; "sm"; "md"; "lg"] None.
Proof.
  apply (larger_breakpoints_ignored _ _ "md" _ None 2); [reflexivity|].
  intros k Hk.
  apply elem_of_cons in Hk as [->|Hk]; [reflexivity|].
  apply elem_of_cons in Hk as [->|Hk]; [reflexivity|].
  apply elem_of_cons in Hk as [->|Hk]; [reflexivity|].
  by apply elem_of_nil in Hk.
Defined.

Lemma getClosestValue_default_defined {T : Type} `{Truthy T}
    (values : gmap string T) (current : string) (order : list string)
    (defaultValue : T) :
  ∃ w, getClosestValue values current order (Some defaultValue) = Some w.
Proof.
  destruct (values !! current) as [v|] eqn:Hv.
  - exists v. by apply getClosestValue_exact.
  - destruct (decide (scanBack values order
                        (Z.to_nat (indexOf order current + 1)) = -1))
      as [Hnone|Hfound].
    + exists defaultValue. rewrite getClosestValue_scan by done. simpl.
      by rewrite Hnone.
    + destruct (getClosestValue_found values current order
                  (Some defaultValue) Hv Hfound) as (_ & _ & w & _ & _ & _ & Hw).
      by exists w.
Qed.

(** X3. With a default value the result is always defined, as the second
    overload of the function declares. *)
Theorem default_makes_result_defined {T : Type} `{Truthy T}
    (values : gmap string T) (current : string) (order : list string)
    (defaultValue : T) :
  ∃ w, getClosestValue values current order (Some defaultValue) = Some w.
Proof. apply getClosestValue_default_defined. Qed.

Lemma getClosestValue_covered {T : Type} `{Truthy T}
    (values : gmap string T) (current : string) (order : list string)
    (fallback : option T) (smallest : string) (v : T) :
  order !! 0%nat = Some smallest → values !! smallest = Some v →
  truthy v = true → current ∈ order →
  ∃ k w, values !! k = Some w
         ∧ getClosestValue values current order fallback = Some w
         ∧ (k = current ∨ (k ∈ order ∧ truthy w = true)).
Proof.
  intros Hfirst Hv Ht Hin.
  destruct (values !! current) as [w|] eqn:Hw.
  - exists current, w. split; [done|]. split; [|by left].
    by apply getClosestValue_exact.
  - destruct (indexOf_elem order current Hin) as (i & Hi & _).
    assert (scanBack values order (Z.to_nat (indexOf order current + 1)) ≠ -1)
      as Hfound.
    { intros Hnone.
      pose proof (scanBack_none_inv values order _ Hnone 0%nat
                    ltac:(lia)) as Hp.
      unfold probe in Hp. rewrite Hfirst in Hp. simpl in Hp.
      rewrite Hv in Hp. change (truthy v = false) in Hp. congruence. }
    destruct (getClosestValue_found values current order fallback Hw Hfound)
      as (j & k & w & Hk & Hkw & Htw & Hres).
    exists k, w. split; [done|]. split; [done|]. right.
    split; [|done]. apply list_elem_of_lookup. by exists j.
Qed.

(** X4. An entry at the smallest breakpoint covers every breakpoint: when
    the first breakpoint of the order has a truthy entry and the current
    breakpoint is in the order, the result is an entry of the mapping, the
    current breakpoint's own or a truthy one; the fallback is not used. *)
Theorem smallest_breakpoint_entry_resolves {T : Type} `{Truthy T}
    (values : gmap string T) (current : string) (order : list string)
    (fallback : option T) (smallest : string) (v : T) :
  order !! 0%nat = Some smallest → values !! smallest = Some v →
  truthy v = true → current ∈ order →
  ∃ k w, values !! k = Some w
         ∧ getClosestValue values current order fallback = Some w
         ∧ (k = current ∨ (k ∈ order ∧ truthy w = true)).
Proof. apply getClosestValue_covered. Qed.

(** Columns [{base: 4, lg: 12}] resolve at [md] although [md] and [sm] have
    no entry. *)
Lemma smallest_breakpoint_entry_resolves_witness :
  ∃ k w, (list_to_map [("base", 4); ("lg", 12)] : gmap string Z) !! k = Some w
         ∧ getClosestValue
             (list_to_map [("base", 4); ("lg", 12)] : gmap string Z)
             "md" ["base"; "sm"; "md"; "lg"] (Some 1) = Some w
         ∧ (k = "md" ∨ (k ∈ ["base"; "sm"; "md"; "lg"] ∧ truthy w = true)).
Proof.
  apply (smallest_breakpoint_entry_resolves _ "md" _ (Some 1) "base" 4);
    first [reflexivity | decide_closed].
Defined.

(** ** Grid template construction, continued *)

Lemma gridTemplateForMdq_built (count : Z) (colWidth : string) :
  1 ≤ count →
  gridTemplateForMdq count colWidth = inr (builtTemplate count colWidth).
Proof.
  intros Hpos. unfold gridTemplateForMdq, contentColumns, arrayIndices.
  destruct (Z.ltb_spec (count - 1) 0) as [Hneg|_]; [lia|].
  unfold builtTemplate. simpl. do 3 f_equal. f_equal.
  unfold seqZ. rewrite <- !list_fmap_compose.
  apply list_fmap_ext. intros _ x _. reflexivity.
Qed.

Lemma builtTemplate_length (count : Z) (colWidth : string) :
  1 ≤ count → length (builtTemplate count colWidth) = Z.to_nat (count + 3).
Proof.
  intros Hpos. unfold builtTemplate.
  rewrite !length_app, length_fmap, length_seqZ. simpl. lia.
Qed.

Lemma builtTemplate_numbered (count : Z) (colWidth : string) (k : Z) :
  2 ≤ k ≤ count →
  builtTemplate count colWidth !! Z.to_nat k = Some (contentColumn k colWidth).
Proof.
  intros Hk. unfold builtTemplate.
  replace (Z.to_nat k) with (2 + Z.to_nat (k - 2))%nat by lia.
  rewrite lookup_app_r by (simpl; lia). simpl.
  replace (2 + Z.to_nat (k - 2) - 2)%nat with (Z.to_nat (k - 2)) by lia.
  rewrite lookup_app_l by (rewrite length_fmap, length_seqZ; lia).
  rewrite list_lookup_fmap, lookup_seqZ_lt by lia. simpl.
  do 2 f_equal. lia.
Qed.

Lemma builtTemplate_closing (count : Z) (colWidth : string) :
  1 ≤ count →
  builtTemplate count colWidth !! Z.to_nat (count + 1)
    = Some {| name := "content-end"; value := "[content-end] minmax(0, 1fr)" |}
  ∧ builtTemplate count colWidth !! Z.to_nat (count + 2)
    = Some (closing "full-end").
Proof.
  intros Hpos. unfold builtTemplate.
  set (numbered := (λ k, contentColumn k colWidth) <$> seqZ 2 (count - 1)).
  assert (length numbered = Z.to_nat (count - 1)) as Hlen
    by (unfold numbered; by rewrite length_fmap, length_seqZ).
  split.
  - replace (Z.to_nat (count + 1)) with (2 + (length numbered + 0))%nat by lia.
    rewrite lookup_app_r by (simpl; lia).
    replace (2 + (length numbered + 0) - length [_; _])%nat
      with (length numbered + 0)%nat by (simpl; lia).
    by rewrite lookup_app_r, Nat.add_comm, Nat.add_sub by lia.
  - replace (Z.to_nat (count + 2)) with (2 + (length numbered + 1))%nat by lia.
    rewrite lookup_app_r by (simpl; lia).
    replace (2 + (length numbered + 1) - length [_; _])%nat
      with (length numbered + 1)%nat by (simpl; lia).
    by rewrite lookup_app_r, Nat.add_comm, Nat.add_sub by lia.
Qed.

(** The decimal rendering of a positive number starts with a digit. *)
Lemma pretty_N_go_head (a : Ascii.ascii) (x : N) (s rest : string) :
  (∀ d, pretty_N_char d ≠ a) → s ≠ String a rest →
  pretty_N_go x s ≠ String a rest.
Proof.
  intros Hdigit. revert s.
  induction (N.lt_wf_0 x) as [x _ IH]; intros s Hs.
  assert (x = 0 ∨ 0 < x)%N as [->|Hpos] by lia.
  - by rewrite pretty_N_go_0.
  - rewrite pretty_N_go_step by done. apply IH.
    + by apply N.div_lt.
    + intros [= Hchar _]. by apply (Hdigit (x `mod` 10)%N).
Qed.

Lemma numberToString_head (a : Ascii.ascii) (k : Z) (rest : string) :
  0 < k → (∀ d, pretty_N_char d ≠ a) → numberToString k ≠ String a rest.
Proof.
  intros Hk Hdigit. destruct k as [|p|p]; [lia | | lia].
  unfold numberToString, pretty, pretty_Z, pretty, pretty_positive, pretty,
    pretty_N.
  destruct (decide (N.pos p = 0%N)) as [Hz|_]; [done|].
  by apply pretty_N_go_head.
Qed.

Lemma not_digit_s : ∀ d, pretty_N_char d ≠ "s"%char.
Proof. intros d. unfold pretty_N_char. by repeat case_match. Qed.

Lemma not_digit_e : ∀ d, pretty_N_char d ≠ "e"%char.
Proof. intros d. unfold pretty_N_char. by repeat case_match. Qed.

#[local] Instance numbered_name_inj :
  Inj (=) (=) (λ k : Z, "content-" +:+ numberToString k).
Proof.
  intros x y Heq. injection Heq as Heq.
  change (pretty x = pretty y) in Heq. by apply (inj (pretty (A:=Z))) in Heq.
Qed.

Lemma builtTemplate_names (count : Z) (colWidth : string) :
  name <$> builtTemplate count colWidth =
    ["full-start"; "content-start"]
    ++ ((λ k, "content-" +:+ numberToString k) <$> seqZ 2 (count - 1))
    ++ ["content-end"; "full-end"].
Proof.
  unfold builtTemplate. rewrite !fmap_app. simpl. do 2 f_equal. f_equal.
  by rewrite <- list_fmap_compose.
Qed.

Lemma builtTemplate_NoDup (count : Z) (colWidth : string) :
  NoDup (name <$> builtTemplate count colWidth).
Proof.
  rewrite builtTemplate_names.
  assert (∀ x, x ∈ (λ k, "content-" +:+ numberToString k) <$> seqZ 2 (count - 1) →
               ∃ k, 2 ≤ k ∧ x = "content-" +:+ numberToString k) as Hnum.
  { intros x (k & -> & Hk)%list_elem_of_fmap.
    apply elem_of_seqZ in Hk. exists k. split; [lia | done]. }
  simpl. apply NoDup_cons. split.
  { rewrite elem_of_cons, elem_of_app, !elem_of_cons, elem_of_nil.
    intros [?|[(k & _ & ?)%Hnum|[?|[?|[]]]]]; discriminate. }
  apply NoDup_cons. split.
  { rewrite elem_of_app, !elem_of_cons, elem_of_nil.
    intros [(k & Hk & Heq)%Hnum|[?|[?|[]]]]; try discriminate.
    injection Heq as Heq. change ("start" = numberToString k) in Heq.
    symmetry in Heq.
    by apply (numberToString_head "s" k "tart" ltac:(lia) not_digit_s). }
  apply NoDup_app. split; [|split].
  - apply (NoDup_fmap_2 _), NoDup_seqZ.
  - intros x (k & Hk & ->)%Hnum.
    rewrite !elem_of_cons, elem_of_nil. intros [Heq|[?|[]]]; [|discriminate].
    injection Heq as Heq. change (numberToString k = "end") in Heq.
    by apply (numberToString_head "e" k "nd" ltac:(lia) not_digit_e).
  - apply NoDup_cons. split; [|apply NoDup_singleton].
    rewrite elem_of_cons, elem_of_nil. intros [?|[]]. discriminate.
Qed.

Lemma NoDup_lineAt (template : list Column) (nm : string) (i : nat) :
  NoDup (name <$> template) → (name <$> template) !! i = Some nm →
  lineAt template nm i.
Proof.
  intros Hnodup Hi. split; [done|].
  intros (j & Hj)%list_elem_of_lookup.
  apply lookup_take_Some in Hj as [Hj Hlt].
  pose proof (NoDup_lookup _ _ _ _ Hnodup Hi Hj). lia.
Qed.

(** X5. A column count below 1 raises: the template cannot be built, the
    hook raises the [RangeError] of [Array(columnCount - 1)], and so does
    the component for a negative column count (0 is stopped earlier, by the
    check of the column count). *)
Theorem nonpositive_column_count_raises (props : HugGridHookProps) :
  columnCount props < 1 →
  gridTemplateForMdq (columnCount props) (hookColWidth props)
    = inl (RangeError "Invalid array length")
  ∧ useHugGrid props = inl (RangeError "Invalid array length")
  ∧ ∀ env hugProps cur,
      useBreakpointValue env (regionBreakpoints env) = Some cur → cur ≠ "" →
      truthy (resolvedGap env cur) = true →
      resolvedColumns env cur = Some (columnCount props) →
      columnCount props ≠ 0 →
      Hug env hugProps = inl (RangeError "Invalid array length").
Proof.
  intros Hneg.
  assert (∀ w, gridTemplateForMdq (columnCount props) w
               = inl (RangeError "Invalid array length")) as Hraise.
  { intros w. unfold gridTemplateForMdq, contentColumns, arrayIndices.
    destruct (Z.ltb_spec (columnCount props - 1) 0); [done | lia]. }
  split; [apply Hraise|]. split.
  - unfold useHugGrid. by rewrite Hraise.
  - intros env hugProps cur Hcur Hne Hgap Hcols Hnz.
    rewrite (Hug_current env hugProps cur Hcur Hne), Hgap, Hcols.
    change (truthy (Some (columnCount props)))
      with (negb (columnCount props =? 0)).
    destruct (Z.eqb_spec (columnCount props) 0); [done|]. simpl.
    unfold useHugGrid. simpl. by rewrite Hraise.
Qed.

(** A column count of -2 at [md]. *)
Lemma nonpositive_column_count_raises_witness :
  useHugGrid {| userGrid := None; columnCount := -2; hookLayoutMax := "80rem";
                gridGap := "1rem"; currentMdq := "md";
                breakpoints := ["base"; "md"] |}
    = inl (RangeError "Invalid array length").
Proof.
  apply (nonpositive_column_count_raises
           {| userGrid := None; columnCount := -2; hookLayoutMax := "80rem";
              gridGap := "1rem"; currentMdq := "md";
              breakpoints := ["base"; "md"] |}).
  simpl. lia.
Defined.

(** X6. Line names are unique: in the template of a column count of at
    least 1 no two entries bear the same name. *)
Theorem template_names_distinct (count : Z) (colWidth : string)
    (template : list Column) :
  1 ≤ count → gridTemplateForMdq count colWidth = inr template →
  NoDup (name <$> template).
Proof.
  intros Hpos Htemplate.
  rewrite gridTemplateForMdq_built in Htemplate by done.
  injection Htemplate as <-. apply builtTemplate_NoDup.
Qed.

Lemma template_names_distinct_witness :
  NoDup (name <$> exampleTemplate).
Proof.
  apply (template_names_distinct 4 exampleWidth); [lia | reflexivity].
Defined.

Lemma template_lines_at (count : Z) (colWidth : string) :
  1 ≤ count →
  let template := builtTemplate count colWidth in
  lineAt template "full-start" 0
  ∧ lineAt template "content-start" 1
  ∧ (∀ k, 2 ≤ k ≤ count →
       lineAt template ("content-" +:+ numberToString k) (Z.to_nat k))
  ∧ lineAt template "content-end" (Z.to_nat (count + 1))
  ∧ lineAt template "full-end" (Z.to_nat (count + 2)).
Proof.
  intros Hpos template.
  pose proof (builtTemplate_NoDup count colWidth) as Hnodup.
  destruct (builtTemplate_closing count colWidth Hpos) as [Hend Hfull].
  split; [by apply NoDup_lineAt|]. split; [by apply NoDup_lineAt|].
  split.
  { intros k Hk. apply NoDup_lineAt; [done|]. unfold template.
    by rewrite list_lookup_fmap, builtTemplate_numbered. }
  split; apply NoDup_lineAt; try done; unfold template.
  - by rewrite list_lookup_fmap, Hend.
  - by rewrite list_lookup_fmap, Hfull.
Qed.

(** X7. Line positions: in the template of a column count of at least 1,
    [full-start] is the entry of index 0, [content-start] of index 1,
    [content-<k>] of index [k] for [2 <= k <= columnCount], [content-end] of
    index [columnCount + 1] and [full-end] of index [columnCount + 2]; a
    name such as [content-1] or [content-<columnCount + 1>] is no line. *)
Theorem template_line_positions (count : Z) (colWidth : string)
    (template : list Column) :
  1 ≤ count → gridTemplateForMdq count colWidth = inr template →
  lineAt template "full-start" 0
  ∧ lineAt template "content-start" 1
  ∧ (∀ k, 2 ≤ k ≤ count →
       lineAt template ("content-" +:+ numberToString k) (Z.to_nat k))
  ∧ lineAt template "content-end" (Z.to_nat (count + 1))
  ∧ lineAt template "full-end" (Z.to_nat (count + 2))
  ∧ (∀ k, k < 2 ∨ count < k →
       lineMissing template (Some ("content-" +:+ numberToString k))).
Proof.
  intros Hpos Htemplate.
  rewrite gridTemplateForMdq_built in Htemplate by done.
  injection Htemplate as <-.
  pose proof (builtTemplate_NoDup count colWidth) as Hnodup.
  destruct (builtTemplate_closing count colWidth Hpos) as [Hend Hfull].
  split; [by apply NoDup_lineAt|]. split; [by apply NoDup_lineAt|].
  split.
  { intros k Hk. apply NoDup_lineAt; [done|].
    by rewrite list_lookup_fmap, builtTemplate_numbered. }
  split; [apply NoDup_lineAt; [done|]; by rewrite list_lookup_fmap, Hend|].
  split; [apply NoDup_lineAt; [done|]; by rewrite list_lookup_fmap, Hfull|].
  intros k Hk. unfold lineMissing. rewrite builtTemplate_names. simpl.
  rewrite !elem_of_cons, elem_of_app, !elem_of_cons, elem_of_nil.
  intros [?|[Heq|[Hin|[Heq|[?|[]]]]]]; try discriminate.
  - injection Heq as Heq. change (numberToString k = "start") in Heq.
    destruct (decide (0 < k)) as [Hk0|Hk0].
    + by apply (numberToString_head "s" k "tart" Hk0 not_digit_s).
    + destruct k as [|p|p]; [discriminate | lia | discriminate].
  - apply list_elem_of_fmap in Hin as (k' & Heq & Hk').
    apply elem_of_seqZ in Hk'.
    apply (inj (λ k : Z, "content-" +:+ numberToString k)) in Heq. lia.
  - injection Heq as Heq. change (numberToString k = "end") in Heq.
    destruct (decide (0 < k)) as [Hk0|Hk0].
    + by apply (numberToString_head "e" k "nd" Hk0 not_digit_e).
    + destruct k as [|p|p]; [discriminate | lia | discriminate].
Qed.

Lemma template_line_positions_witness :
  lineAt exampleTemplate "content-3" 3
  ∧ lineMissing exampleTemplate (Some "content-5").
Proof.
  destruct (template_line_positions 4 exampleWidth exampleTemplate
              ltac:(lia) eq_refl) as (_ & _ & Hnum & _ & _ & Hmiss).
  split.
  - apply (Hnum 3). lia.
  - apply (Hmiss 5). lia.
Defined.

(** ** Subgrid slicing, continued *)

(** Slicing either raises the error of a missing line of the span, or both
    lines are in the template and it returns columns. *)
Lemma subGrid_outcome (template : list Column) (cur : string) (count : Z)
    (start end_ : option string) :
  (∃ line, lineMissing template line ∧ (line = start ∨ line = end_)
           ∧ (lineMissing template start → line = start)
           ∧ subGrid template cur count start end_ =
               inl (Error (msgLine line cur count (name <$> template))))
  ∨ (¬ lineMissing template start ∧ ¬ lineMissing template end_
     ∧ ∃ cols, subGrid template cur count start end_ = inr cols).
Proof.
  unfold subGrid.
  set (startIdx :=
         findIndex (λ col, bool_decide (Some (name col) = start)) template).
  set (endIdx :=
         findIndex (λ col, bool_decide (Some (name col) = end_)) template).
  destruct (Z.eqb_spec startIdx (-1)) as [Hs|Hs].
  { left. exists start. apply findIndex_lineMissing in Hs.
    split; [done|]. split; [by left|]. by split. }
  assert (¬ lineMissing template start) as Hstart.
  { intros Hm. by apply lineMissing_findIndex in Hm. }
  destruct (Z.eqb_spec endIdx (-1)) as [He|He].
  { left. exists end_. apply findIndex_lineMissing in He.
    split; [done|]. split; [by right|]. by split. }
  right. split; [done|]. split.
  { intros Hm. by apply lineMissing_findIndex in Hm. }
  destruct (findIndexFrom_found _ template 0 ltac:(lia) He)
    as (k & col & Hk & Hcol & _).
  fold (findIndex (λ col, bool_decide (Some (name col) = end_)) template) in Hk.
  fold endIdx in Hk. simpl. rewrite Hk, Z.add_0_l, at_of_nat, Hcol. by eexists.
Qed.

(** X8. Slicing succeeds exactly when both lines of the span are lines of
    the template. *)
Theorem slice_succeeds_iff_lines_present (template : list Column)
    (cur : string) (count : Z) (start end_ : option string) :
  (∃ cols, subGrid template cur count start end_ = inr cols)
  ↔ ¬ lineMissing template start ∧ ¬ lineMissing template end_.
Proof.
  destruct (subGrid_outcome template cur count start end_)
    as [(line & _ & _ & _ & Herr)|(Hs & He & Hok)].
  - split.
    + intros [cols Hcols]. congruence.
    + intros [Hs He]. exfalso.
      destruct (subGrid_outcome template cur count start end_)
        as [(line' & Hm & [->| ->] & _)|(_ & _ & cols & Hcols)];
        [done | done | congruence].
  - by split.
Qed.

Lemma sliced_names (template : list Column) (nm : string) (i j : nat) :
  (i ≤ j)%nat → (name <$> template) !! j = Some nm →
  name <$> (take (j - i) (drop i template) ++ [closing nm])
    = take (j - i + 1) (drop i (name <$> template)).
Proof.
  intros Hle Hj. rewrite fmap_app, fmap_take, fmap_drop. simpl.
  replace (j - i + 1)%nat with (S (j - i)) by lia.
  symmetry. apply take_S_r. rewrite lookup_drop.
  by replace (i + (j - i))%nat with j by lia.
Qed.

(** X9. Line names survive slicing: when the start line is at index [i] and
    the end line at index [j >= i], the names of the sliced template are the
    names of the entries [i] to [j] of the full template, both included, in
    order; there are [j - i + 1] of them. *)
Theorem sliced_names_contiguous (template : list Column) (cur : string)
    (count : Z) (start end_ : string) (i j : nat) :
  lineAt template start i → lineAt template end_ j → (i ≤ j)%nat →
  ∃ cols,
    subGrid template cur count (Some start) (Some end_) = inr cols
    ∧ name <$> cols = take (j - i + 1) (drop i (name <$> template))
    ∧ length cols = (j - i + 1)%nat.
Proof.
  intros Hstart Hend Hle.
  destruct (lineAt_lookup _ _ _ Hstart) as (? & ?%lookup_lt_Some & _).
  destruct (lineAt_lookup _ _ _ Hend) as (? & ?%lookup_lt_Some & _).
  eexists. split.
  - rewrite (subGrid_found _ _ _ _ _ i j) by done.
    by rewrite slice_nat by lia.
  - split.
    + apply sliced_names; [done | apply Hend].
    + rewrite length_app, length_take, length_drop. simpl. lia.
Qed.

Lemma sliced_names_contiguous_witness :
  ∃ cols,
    subGrid exampleTemplate "md" 4 (Some "content-2") (Some "content-end")
      = inr cols
    ∧ name <$> cols = take (5 - 2 + 1) (drop 2 (name <$> exampleTemplate))
    ∧ length cols = (5 - 2 + 1)%nat.
Proof.
  apply sliced_names_contiguous; [| |lia];
    (split; [reflexivity | decide_closed]).
Defined.

Lemma builtTemplate_full_span (count : Z) (colWidth : string) (cur : string) :
  1 ≤ count →
  subGrid (builtTemplate count colWidth) cur count
    (Some "full-start") (Some "full-end") = inr (builtTemplate count colWidth).
Proof.
  intros Hpos.
  pose proof (builtTemplate_NoDup count colWidth) as Hnodup.
  destruct (builtTemplate_closing count colWidth Hpos) as [_ Hfull].
  pose proof (builtTemplate_length count colWidth Hpos) as Hlen.
  rewrite (subGrid_found _ _ _ _ _ 0 (Z.to_nat (count + 2))).
  - rewrite slice_nat by lia. rewrite Nat.sub_0_r, drop_0.
    rewrite <- (take_S_r _ _ _ Hfull).
    by rewrite take_ge by lia.
  - by apply NoDup_lineAt.
  - apply NoDup_lineAt; [done|]. by rewrite list_lookup_fmap, Hfull.
Qed.

Lemma useHugGrid_no_userGrid (props : HugGridHookProps) :
  userGrid props = None → 1 ≤ columnCount props →
  useHugGrid props =
    inr {| gridTemplateColumns :=
             join LF (value <$> builtTemplate (columnCount props)
                                  (hookColWidth props));
           gridColumn := None |}.
Proof.
  intros Hnone Hpos. unfold useHugGrid.
  fold (hookColWidth props).
  by rewrite gridTemplateForMdq_built, Hnone by done.
Qed.

Lemma useHugGrid_full_span (props : HugGridHookProps)
    (grid : gmap string (list string)) (lines : list string) :
  1 ≤ columnCount props → userGrid props = Some grid →
  getClosestValue grid (currentMdq props) (breakpoints props)
    (Some defaultSubGrid) = Some lines →
  lines !! 0%nat = Some "full-start" → lines !! 1%nat = Some "full-end" →
  ∃ columnsText,
    useHugGrid props =
      inr {| gridTemplateColumns := columnsText;
             gridColumn := Some "full-start / full-end" |}
    ∧ useHugGrid (withoutUserGrid props) =
        inr {| gridTemplateColumns := columnsText; gridColumn := None |}.
Proof.
  intros Hpos Hgrid Hlines H0 H1.
  exists (join LF (value <$> builtTemplate (columnCount props)
                               (hookColWidth props))).
  split.
  - rewrite (useHugGrid_userGrid props grid lines
               (builtTemplate (columnCount props) (hookColWidth props)));
      [| done | done | by apply gridTemplateForMdq_built].
    by rewrite H0, H1, builtTemplate_full_span.
  - by rewrite useHugGrid_no_userGrid.
Qed.

(** X10. The full span changes nothing but the placement: for a column
    count of at least 1, a user grid that resolves to [full-start] and
    [full-end] gives the same [gridTemplateColumns] as no user grid at all,
    with [gridColumn] set to ["full-start / full-end"] instead of
    [undefined]. *)
Theorem full_span_keeps_template (props : HugGridHookProps)
    (grid : gmap string (list string)) (lines : list string) :
  1 ≤ columnCount props → userGrid props = Some grid →
  getClosestValue grid (currentMdq props) (breakpoints props)
    (Some defaultSubGrid) = Some lines →
  lines !! 0%nat = Some "full-start" → lines !! 1%nat = Some "full-end" →
  ∃ columnsText,
    useHugGrid props =
      inr {| gridTemplateColumns := columnsText;
             gridColumn := Some "full-start / full-end" |}
    ∧ useHugGrid (withoutUserGrid props) =
        inr {| gridTemplateColumns := columnsText; gridColumn := None |}.
Proof. apply useHugGrid_full_span. Qed.

Lemma full_span_keeps_template_witness :
  ∃ columnsText,
    useHugGrid (exampleProps ["full-start"; "full-end"]) =
      inr {| gridTemplateColumns := columnsText;
             gridColumn := Some "full-start / full-end" |}
    ∧ useHugGrid (withoutUserGrid (exampleProps ["full-start"; "full-end"])) =
        inr {| gridTemplateColumns := columnsText; gridColumn := None |}.
Proof.
  apply (full_span_keeps_template (exampleProps ["full-start"; "full-end"])
           (list_to_map [("base", ["full-start"; "full-end"])])
           ["full-start"; "full-end"]);
    first [reflexivity | simpl; lia].
Defined.

(** X11. A user grid that declares nothing at the current breakpoint nor at
    any breakpoint of the order up to it puts the region on the full grid:
    the default span is used, so the template is the one of a region without
    user grid and [gridColumn] is ["full-start / full-end"]. *)
Theorem undeclared_breakpoint_uses_full_span (props : HugGridHookProps)
    (grid : gmap string (list string)) :
  1 ≤ columnCount props → userGrid props = Some grid →
  grid !! currentMdq props = None →
  (∀ (j : nat) k, Z.of_nat j ≤ indexOf (breakpoints props) (currentMdq props) →
     breakpoints props !! j = Some k → grid !! k = None) →
  ∃ columnsText,
    useHugGrid props =
      inr {| gridTemplateColumns := columnsText;
             gridColumn := Some "full-start / full-end" |}
    ∧ useHugGrid (withoutUserGrid props) =
        inr {| gridTemplateColumns := columnsText; gridColumn := None |}.
Proof.
  intros Hpos Hgrid Hcur Hbelow.
  apply (useHugGrid_full_span props grid defaultSubGrid); try done.
  apply getClosestValue_no_match; [done|].
  intros j k v Hj Hk Hv. rewrite (Hbelow j k Hj Hk) in Hv. discriminate.
Qed.

(** The user grid only declares a span from [lg] up; the region is resolved
    at [md]. *)
Lemma undeclared_breakpoint_uses_full_span_witness :
  ∃ columnsText,
    useHugGrid {| userGrid := Some (list_to_map [("lg", ["content-2"; "content-4"])]);
                  columnCount := 8; hookLayoutMax := "80rem";
                  gridGap := "1rem"; currentMdq := "md";
                  breakpoints := ["base"; "sm"; "md"; "lg"] |} =
      inr {| gridTemplateColumns := columnsText;
             gridColumn := Some "full-start / full-end" |}
    ∧ useHugGrid
        (withoutUserGrid
           {| userGrid := Some (list_to_map [("lg", ["content-2"; "content-4"])]);
              columnCount := 8; hookLayoutMax := "80rem";
              gridGap := "1rem"; currentMdq := "md";
              breakpoints := ["base"; "sm"; "md"; "lg"] |}) =
        inr {| gridTemplateColumns := columnsText; gridColumn := None |}.
Proof.
  apply (undeclared_breakpoint_uses_full_span _
           (list_to_map [("lg", ["content-2"; "content-4"])]));
    [simpl; lia | reflexivity | reflexivity |].
  intros j k Hj Hk. simpl in Hj, Hk.
  assert (j = 0 ∨ j = 1 ∨ j = 2)%nat as [->|[->| ->]]
    by (change (indexOf _ _) with 2 in Hj; lia);
    injection Hk as <-; reflexivity.
Defined.

Lemma builtTemplate_numbered_range (count : Z) (colWidth : string) (a b : Z) :
  2 ≤ a → a ≤ b → b ≤ count + 1 →
  take (Z.to_nat b - Z.to_nat a) (drop (Z.to_nat a) (builtTemplate count colWidth))
    = (λ k, contentColumn k colWidth) <$> seqZ a (b - a).
Proof.
  intros Ha Hab Hb. apply list_eq. intros n.
  destruct (decide (Z.of_nat n < b - a)) as [Hn|Hn].
  - rewrite lookup_take_lt, lookup_drop by lia.
    rewrite list_lookup_fmap, lookup_seqZ_lt by done. simpl.
    replace (Z.to_nat a + n)%nat with (Z.to_nat (a + Z.of_nat n)) by lia.
    apply builtTemplate_numbered. lia.
  - rewrite lookup_take_ge by lia.
    symmetry. apply lookup_ge_None. rewrite length_fmap, length_seqZ. lia.
Qed.

(** X12. A span between two numbered lines: for [2 <= a < b <=
    columnCount], a user grid that resolves to [content-<a>] and
    [content-<b>] gives the sized columns [content-<a>] to [content-<b - 1>]
    followed by the unsized line [[content-<b>]], and the span
    ["content-<a> / content-<b>"]. *)
Theorem numbered_span (props : HugGridHookProps)
    (grid : gmap string (list string)) (lines : list string) (a b : Z) :
  userGrid props = Some grid →
  getClosestValue grid (currentMdq props) (breakpoints props)
    (Some defaultSubGrid) = Some lines →
  lines !! 0%nat = Some ("content-" +:+ numberToString a) →
  lines !! 1%nat = Some ("content-" +:+ numberToString b) →
  2 ≤ a → a < b → b ≤ columnCount props →
  useHugGrid props =
    inr {| gridTemplateColumns :=
             join LF
               ((value <$> ((λ k, contentColumn k (hookColWidth props))
                              <$> seqZ a (b - a)))
                ++ ["[" +:+ ("content-" +:+ numberToString b) +:+ "]"]);
           gridColumn :=
             Some (("content-" +:+ numberToString a) +:+ " / " +:+
                   ("content-" +:+ numberToString b)) |}.
Proof.
  intros Hgrid Hlines H0 H1 Ha Hab Hb.
  set (template := builtTemplate (columnCount props) (hookColWidth props)).
  assert (gridTemplateForMdq (columnCount props) (hookColWidth props)
            = inr template) as Htemplate
    by (apply gridTemplateForMdq_built; lia).
  destruct (template_lines_at (columnCount props) (hookColWidth props)
              ltac:(lia)) as (_ & _ & Hnum & _).
  rewrite (useHugGrid_userGrid props grid lines template) by done.
  rewrite H0, H1.
  rewrite (subGrid_found template _ _ _ _ (Z.to_nat a) (Z.to_nat b))
    by (apply Hnum; lia).
  pose proof (builtTemplate_length (columnCount props) (hookColWidth props)
                ltac:(lia)) as Hlen.
  rewrite slice_nat by (fold template in Hlen; lia).
  unfold template. rewrite builtTemplate_numbered_range by lia.
  simpl. by rewrite fmap_app.
Qed.

(** Eight columns, span [content-3] to [content-6]. *)
Lemma numbered_span_witness :
  useHugGrid numberedProps =
    inr {| gridTemplateColumns :=
             join LF
               ((value <$> ((λ k, contentColumn k (hookColWidth numberedProps))
                              <$> seqZ 3 (6 - 3)))
                ++ ["[" +:+ ("content-" +:+ numberToString 6) +:+ "]"]);
           gridColumn :=
             Some (("content-" +:+ numberToString 3) +:+ " / " +:+
                   ("content-" +:+ numberToString 6)) |}.
Proof.
  apply (numbered_span numberedProps
           (list_to_map [("md", ["content-3"; "content-6"])])
           ["content-3"; "content-6"] 3 6);
    first [reflexivity | simpl; lia].
Defined.

(** X13. A span with fewer than two line names yields no template: the
    hook raises the error of a missing line, which names the first line when
    that one is no line of the template and [undefined] otherwise. *)
Theorem short_span_raises (props : HugGridHookProps)
    (grid : gmap string (list string)) (lines : list string)
    (template : list Column) :
  userGrid props = Some grid →
  getClosestValue grid (currentMdq props) (breakpoints props)
    (Some defaultSubGrid) = Some lines →
  gridTemplateForMdq (columnCount props) (hookColWidth props) = inr template →
  (length lines < 2)%nat →
  ∃ line,
    lineMissing template line
    ∧ (line = lines !! 0%nat ∨ line = None)
    ∧ (lineMissing template (lines !! 0%nat) → line = lines !! 0%nat)
    ∧ useHugGrid props =
        inl (Error (msgLine line (currentMdq props) (columnCount props)
                      (name <$> template))).
Proof.
  intros Hgrid Hlines Htemplate Hshort.
  assert (lines !! 1%nat = None) as Hend by (apply lookup_ge_None; lia).
  rewrite (useHugGrid_userGrid props grid lines template) by done.
  destruct (subGrid_outcome template (currentMdq props) (columnCount props)
              (lines !! 0%nat) (lines !! 1%nat))
    as [(line & Hm & Hline & Hfirst & Herr)|(_ & He & _)].
  - exists line. split; [done|]. split; [by rewrite Hend in Hline|].
    split; [done|]. by rewrite Herr.
  - rewrite Hend in He. by destruct He.
Qed.

(** The span [[content-2]] lacks its end line. *)
Lemma short_span_raises_witness :
  ∃ line,
    lineMissing exampleTemplate line
    ∧ (line = ["content-2"] !! 0%nat ∨ line = None)
    ∧ (lineMissing exampleTemplate (["content-2"] !! 0%nat) →
       line = ["content-2"] !! 0%nat)
    ∧ useHugGrid (exampleProps ["content-2"]) =
        inl (Error (msgLine line "md" 4 (name <$> exampleTemplate))).
Proof.
  apply (short_span_raises (exampleProps ["content-2"])
           (list_to_map [("base", ["content-2"])]) ["content-2"]
           exampleTemplate);
    first [reflexivity | simpl; lia].
Defined.

Lemma useHugGrid_failures (props : HugGridHookProps) (e : JsError) :
  useHugGrid props = inl e →
  (columnCount props < 1 ∧ e = RangeError "Invalid array length")
  ∨ (1 ≤ columnCount props
     ∧ ∃ grid lines template line,
         userGrid props = Some grid
         ∧ getClosestValue grid (currentMdq props) (breakpoints props)
             (Some defaultSubGrid) = Some lines
         ∧ gridTemplateForMdq (columnCount props) (hookColWidth props)
             = inr template
         ∧ (line = lines !! 0%nat ∨ line = lines !! 1%nat)
         ∧ lineMissing template line
         ∧ e = Error (msgLine line (currentMdq props) (columnCount props)
                        (name <$> template))).
Proof.
  intros Hfail.
  destruct (decide (columnCount props < 1)) as [Hneg|Hpos].
  { left. split; [done|].
    assert (useHugGrid props = inl (RangeError "Invalid array length")) as Hr.
    { unfold useHugGrid, gridTemplateForMdq, contentColumns, arrayIndices.
      destruct (Z.ltb_spec (columnCount props - 1) 0); [done | lia]. }
    congruence. }
  right. split; [lia|].
  destruct (userGrid props) as [grid|] eqn:Hgrid.
  - destruct (getClosestValue_default_defined grid (currentMdq props)
                (breakpoints props) defaultSubGrid) as [lines Hlines].
    set (template := builtTemplate (columnCount props) (hookColWidth props)).
    assert (gridTemplateForMdq (columnCount props) (hookColWidth props)
              = inr template) as Htemplate
      by (apply gridTemplateForMdq_built; lia).
    rewrite (useHugGrid_userGrid props grid lines template) in Hfail by done.
    destruct (subGrid_outcome template (currentMdq props) (columnCount props)
                (lines !! 0%nat) (lines !! 1%nat))
      as [(line & Hm & Hline & _ & Herr)|(_ & _ & cols & Hcols)].
    + rewrite Herr in Hfail. simpl in Hfail. injection Hfail as <-.
      by exists grid, lines, template, line.
    + rewrite Hcols in Hfail. discriminate.
  - rewrite useHugGrid_no_userGrid in Hfail by (done || lia). discriminate.
Qed.



(** ** Region resolution, continued *)

Lemma truthy_string (g : string) : g ≠ "" → truthy g = true.
Proof. by destruct g. Qed.

Lemma Hug_without_span (env : Env) (props : HugProps) (cur g : string) (n : Z) :
  useBreakpointValue env (regionBreakpoints env) = Some cur → cur ≠ "" →
  hugGrid props = None →
  resolvedGap env cur = Some g → g ≠ "" →
  resolvedColumns env cur = Some n → 1 ≤ n →
  ∃ template,
    gridTemplateForMdq n
      (contentColWidth (useToken env "sizes" (layoutMax (regionConfig env)))
         (useToken env "sizes" g) n) = inr template
    ∧ Hug env props =
        inr {| display := "grid";
               gap := useToken env "sizes" g;
               grid := {| gridTemplateColumns := join LF (value <$> template);
                          gridColumn := None |} |}.
Proof.
  intros Hcur Hne Hspan Hgap Hg Hcols Hn.
  eexists. split; [by apply gridTemplateForMdq_built|].
  rewrite (Hug_current env props cur Hcur Hne), Hgap, Hcols.
  change (truthy (Some g)) with (truthy g). rewrite (truthy_string g Hg).
  change (truthy (Some n)) with (negb (n =? 0)).
  destruct (Z.eqb_spec n 0); [lia|]. simpl.
  by rewrite useHugGrid_no_userGrid by (simpl; done).
Qed.

(** X15. A region without user grid: with a current breakpoint, a gap
    token that resolves to a non-empty string and a column count that
    resolves to at least 1, the component renders a grid whose [gap] is the
    size of the gap token, whose template is the full template of the column
    count, built on the sizes of the gap token and of [layoutMax], and whose
    [gridColumn] is left [undefined]. *)
Theorem region_without_span (env : Env) (props : HugProps) (cur g : string)
    (n : Z) :
  useBreakpointValue env (regionBreakpoints env) = Some cur → cur ≠ "" →
  hugGrid props = None →
  resolvedGap env cur = Some g → g ≠ "" →
  resolvedColumns env cur = Some n → 1 ≤ n →
  ∃ template,
    gridTemplateForMdq n
      (contentColWidth (useToken env "sizes" (layoutMax (regionConfig env)))
         (useToken env "sizes" g) n) = inr template
    ∧ Hug env props =
        inr {| display := "grid";
               gap := useToken env "sizes" g;
               grid := {| gridTemplateColumns := join LF (value <$> template);
                          gridColumn := None |} |}.
Proof. apply Hug_without_span. Qed.

(** The default configuration at [md]: gap token 8, eight columns. *)
Lemma region_without_span_witness :
  ∃ template,
    gridTemplateForMdq 8
      (contentColWidth "var(--sizes-container.xl)" "var(--sizes-8)" 8)
      = inr template
    ∧ Hug (exampleEnv HugConfig (Some "md")) {| hugGrid := None |} =
        inr {| display := "grid";
               gap := "var(--sizes-8)";
               grid := {| gridTemplateColumns := join LF (value <$> template);
                          gridColumn := None |} |}.
Proof.
  apply (region_without_span (exampleEnv HugConfig (Some "md"))
           {| hugGrid := None |} "md" "8" 8);
    first [reflexivity | discriminate | lia].
Defined.

Lemma HugConfig_gaps (k g : string) :
  gaps HugConfig !! k = Some g → g ≠ "".
Proof.
  intros Hk. apply elem_of_list_to_map_2 in Hk.
  rewrite !elem_of_cons, elem_of_nil in Hk.
  destruct Hk as [?|[?|[?|[]]]]; simplify_eq; discriminate.
Qed.

Lemma HugConfig_columns (k : string) (n : Z) :
  columns HugConfig !! k = Some n → 1 ≤ n.
Proof.
  intros Hk. apply elem_of_list_to_map_2 in Hk.
  rewrite !elem_of_cons, elem_of_nil in Hk.
  destruct Hk as [?|[?|[?|[]]]]; simplify_eq; lia.
Qed.

(** X16. The default configuration covers every breakpoint: when the theme
    carries no [config.hug], its smallest breakpoint is [base] and the
    current breakpoint is one of the theme's, a region without user grid
    renders; neither the gap token nor the column count fails to
    resolve. *)
Theorem default_config_covers_breakpoints (env : Env) (props : HugProps)
    (cur : string) :
  config_hug (useTheme env) = None →
  regionBreakpoints env !! 0%nat = Some "base" →
  useBreakpointValue env (regionBreakpoints env) = Some cur → cur ≠ "" →
  cur ∈ regionBreakpoints env →
  hugGrid props = None →
  ∃ g n rendered,
    resolvedGap env cur = Some g ∧ g ≠ ""
    ∧ resolvedColumns env cur = Some n ∧ 1 ≤ n
    ∧ Hug env props = inr rendered
    ∧ display rendered = "grid" ∧ gap rendered = useToken env "sizes" g.
Proof.
  intros Hconfig Hbase Hcur Hne Hin Hspan.
  assert (regionConfig env = HugConfig) as Hdefault
    by (unfold regionConfig; by rewrite Hconfig).
  destruct (getClosestValue_covered (gaps HugConfig) cur
              (regionBreakpoints env) None "base" "4" Hbase eq_refl eq_refl Hin)
    as (kg & g & Hkg & Hg & _).
  destruct (getClosestValue_covered (columns HugConfig) cur
              (regionBreakpoints env) None "base" 4 Hbase eq_refl eq_refl Hin)
    as (kn & n & Hkn & Hn & _).
  apply HugConfig_gaps in Hkg. apply HugConfig_columns in Hkn.
  assert (resolvedGap env cur = Some g) as Hgap
    by (unfold resolvedGap; by rewrite Hdefault).
  assert (resolvedColumns env cur = Some n) as Hcols
    by (unfold resolvedColumns; by rewrite Hdefault).
  destruct (Hug_without_span env props cur g n Hcur Hne Hspan Hgap Hkg Hcols Hkn)
    as (template & _ & Hhug).
  exists g, n. eexists. split; [done|]. split; [done|]. split; [done|].
  split; [done|]. split; [exact Hhug|]. by split.
Qed.

(** A theme without [config.hug], resolved at [xl], beyond the last
    breakpoint the default configuration declares. *)
Lemma default_config_covers_breakpoints_witness :
  ∃ g n rendered,
    resolvedGap plainEnv "xl" = Some g ∧ g ≠ ""
    ∧ resolvedColumns plainEnv "xl" = Some n ∧ 1 ≤ n
    ∧ Hug plainEnv {| hugGrid := None |} = inr rendered
    ∧ display rendered = "grid" ∧ gap rendered = useToken plainEnv "sizes" g.
Proof.
  apply (default_config_covers_breakpoints plainEnv {| hugGrid := None |} "xl");
    first [reflexivity | discriminate | decide_closed].
Defined.

(** X17. Overriding replaces, it does not merge: when the theme carries the
    extension of the default configuration by a configuration that gives
    [columns] and leaves [gaps] out, the gap token still resolves from the
    default gaps, but the default column counts are gone; at a breakpoint
    for which the given [columns] hold no entry, and no truthy entry at any
    breakpoint up to it, the component raises the error of the number of
    columns. *)
Theorem override_replaces_default_columns (env : Env) (props : HugProps)
    (config : PartialHugConfigProps) (given : gmap string Z) (cur : string) :
  config_hug (useTheme env) = Some (hug (extendHugConfig config)) →
  partialGaps config = None → partialColumns config = Some given →
  regionBreakpoints env !! 0%nat = Some "base" →
  useBreakpointValue env (regionBreakpoints env) = Some cur → cur ≠ "" →
  cur ∈ regionBreakpoints env →
  given !! cur = None →
  (∀ (j : nat) k n, Z.of_nat j ≤ indexOf (regionBreakpoints env) cur →
     regionBreakpoints env !! j = Some k → given !! k = Some n → n = 0) →
  (∃ g, resolvedGap env cur = Some g ∧ g ≠ "")
  ∧ resolvedColumns env cur = None
  ∧ Hug env props = inl (Error msgColumns).
Proof.
  intros Hconfig Hgaps Hgiven Hbase Hcur Hne Hin Hnone Hbelow.
  assert (gaps (regionConfig env) = gaps HugConfig) as Hg
    by (unfold regionConfig; rewrite Hconfig; simpl; by rewrite Hgaps).
  assert (columns (regionConfig env) = given) as Hc
    by (unfold regionConfig; rewrite Hconfig; simpl; by rewrite Hgiven).
  destruct (getClosestValue_covered (gaps HugConfig) cur
              (regionBreakpoints env) None "base" "4" Hbase eq_refl eq_refl Hin)
    as (kg & g & Hkg & Hres & _).
  apply HugConfig_gaps in Hkg.
  assert (resolvedGap env cur = Some g) as Hgap
    by (unfold resolvedGap; by rewrite Hg).
  assert (resolvedColumns env cur = None) as Hcols.
  { unfold resolvedColumns. rewrite Hc.
    apply getClosestValue_no_match; [done|].
    intros j k n Hj Hk Hn. by rewrite (Hbelow j k n Hj Hk Hn). }
  split; [by exists g|]. split; [done|].
  rewrite (Hug_current env props cur Hcur Hne), Hgap, Hcols.
  change (truthy (Some g)) with (truthy g). by rewrite (truthy_string g Hkg).
Qed.

(** Columns given from [md] up only: a region at [sm] has no column
    count. *)
Lemma override_replaces_default_columns_witness :
  (∃ g, resolvedGap (extendedEnv columnsFromMd (Some "sm")) "sm" = Some g
        ∧ g ≠ "")
  ∧ resolvedColumns (extendedEnv columnsFromMd (Some "sm")) "sm" = None
  ∧ Hug (extendedEnv columnsFromMd (Some "sm")) {| hugGrid := None |}
    = inl (Error msgColumns).
Proof.
  apply (override_replaces_default_columns
           (extendedEnv columnsFromMd (Some "sm")) {| hugGrid := None |}
           columnsFromMd (list_to_map [("md", 6); ("lg", 12)]) "sm");
    try first [reflexivity | discriminate | decide_closed].
  intros j k n Hj Hk Hn. exfalso.
  change (indexOf _ _) with 1 in Hj.
  assert (j = 0 ∨ j = 1)%nat as [->| ->] by lia;
    injection Hk as <-; discriminate Hn.
Defined.

Lemma msgLine_not_breakpoint (line : option string) (cur : string) (count : Z)
    (names : list string) :
  msgLine line cur count names ≠ msgBreakpoint.
Proof. intros Heq. injection Heq as Heq. discriminate Heq. Qed.

Lemma msgLine_not_gap (line : option string) (cur : string) (count : Z)
    (names : list string) :
  msgLine line cur count names ≠ msgGapToken.
Proof. intros Heq. injection Heq as Heq. discriminate Heq. Qed.

Lemma msgLine_not_columns (line : option string) (cur : string) (count : Z)
    (names : list string) :
  msgLine line cur count names ≠ msgColumns.
Proof. intros Heq. injection Heq as Heq. discriminate Heq. Qed.

(** The component raises one of its three checks' errors only through that
    check: what the hook raises is never one of them. *)
Lemma Hug_hook_error (env : Env) (props : HugProps) (cur : string)
    (message : string) :
  useBreakpointValue env (regionBreakpoints env) = Some cur → cur ≠ "" →
  truthy (resolvedGap env cur) = true →
  truthy (resolvedColumns env cur) = true →
  Hug env props = inl (Error message) →
  ∃ line count names, message = msgLine line cur count names.
Proof.
  intros Hcur Hne Hgap Hcols.
  rewrite (Hug_current env props cur Hcur Hne), Hgap, Hcols. simpl.
  match goal with |- context [useHugGrid ?h] => set (hookProps := h) end.
  destruct (useHugGrid hookProps) as [e|ok] eqn:Hhook; [|discriminate].
  simpl. intros [= ->].
  destruct (useHugGrid_failures hookProps _ Hhook)
    as [[_ ?]|(_ & grid & lines & template & line & _ & _ & _ & _ & _ & Heq)];
    [discriminate|].
  injection Heq as ->. by eexists _, _, _.
Qed.

(** X18. Each error of the component identifies its cause: the error of
    the breakpoint is raised exactly when there is no current breakpoint;
    with a current breakpoint, the error of the gap token is raised exactly
    when the resolved gap token is falsy, and the error of the number of
    columns exactly when the gap token is truthy and the resolved column
    count is falsy. *)
Theorem error_identifies_cause (env : Env) (props : HugProps) :
  (Hug env props = inl (Error msgBreakpoint)
   ↔ truthy (useBreakpointValue env (regionBreakpoints env)) = false)
  ∧ ∀ cur,
      useBreakpointValue env (regionBreakpoints env) = Some cur → cur ≠ "" →
      (Hug env props = inl (Error msgGapToken)
       ↔ truthy (resolvedGap env cur) = false)
      ∧ (Hug env props = inl (Error msgColumns)
         ↔ truthy (resolvedGap env cur) = true
           ∧ truthy (resolvedColumns env cur) = false).
Proof.
  assert (∀ cur, useBreakpointValue env (regionBreakpoints env) = Some cur →
                 cur ≠ "" →
                 ∀ message,
                   Hug env props = inl (Error message) →
                   (truthy (resolvedGap env cur) = false ∧ message = msgGapToken)
                   ∨ (truthy (resolvedGap env cur) = true
                      ∧ truthy (resolvedColumns env cur) = false
                      ∧ message = msgColumns)
                   ∨ (truthy (resolvedGap env cur) = true
                      ∧ truthy (resolvedColumns env cur) = true
                      ∧ ∃ line count names,
                          message = msgLine line cur count names)) as Hcases.
  { intros cur Hcur Hne message Hhug.
    destruct (truthy (resolvedGap env cur)) eqn:Hgap.
    - destruct (truthy (resolvedColumns env cur)) eqn:Hcols.
      + right. right. split; [done|]. split; [done|].
        by apply (Hug_hook_error env props cur message).
      + right. left. split; [done|]. split; [done|].
        rewrite (Hug_current env props cur Hcur Hne), Hgap, Hcols in Hhug.
        simpl in Hhug. by injection Hhug as <-.
    - left. split; [done|].
      rewrite (Hug_current env props cur Hcur Hne), Hgap in Hhug.
      simpl in Hhug. by injection Hhug as <-. }
  split.
  - split.
    + intros Hhug.
      destruct (useBreakpointValue env (regionBreakpoints env))
        as [cur|] eqn:Hcur; [|done].
      destruct cur as [|c cur]; [done|]. exfalso.
      destruct (Hcases _ eq_refl ltac:(discriminate) _ Hhug)
        as [[_ Heq]|[(_ & _ & Heq)|(_ & _ & line & count & names & Heq)]].
      * discriminate Heq.
      * discriminate Heq.
      * symmetry in Heq. by apply msgLine_not_breakpoint in Heq.
    + intros Hfalsy. unfold Hug.
      change (default [] (breakpoints_keys (useTheme env)))
        with (regionBreakpoints env).
      by rewrite Hfalsy.
  - intros cur Hcur Hne. split; split.
    + intros Hhug.
      destruct (Hcases _ Hcur Hne _ Hhug)
        as [[? _]|[(_ & _ & Heq)|(_ & _ & line & count & names & Heq)]].
      * done.
      * discriminate Heq.
      * symmetry in Heq. by apply msgLine_not_gap in Heq.
    + intros Hfalsy.
      by rewrite (Hug_current env props cur Hcur Hne), Hfalsy.
    + intros Hhug.
      destruct (Hcases _ Hcur Hne _ Hhug)
        as [[_ Heq]|[(? & ? & _)|(_ & _ & line & count & names & Heq)]].
      * discriminate Heq.
      * done.
      * symmetry in Heq. by apply msgLine_not_columns in Heq.
    + intros [Hgap Hcols].
      by rewrite (Hug_current env props cur Hcur Hne), Hgap, Hcols.
Qed.

(** Without gaps the error is the one of the gap token, and it is not the
    one of the number of columns although the columns are not looked at. *)
Lemma error_identifies_cause_witness :
  Hug (exampleEnv configNoGaps (Some "md")) {| hugGrid := None |}
    = inl (Error msgGapToken).
Proof.
  apply (proj2 (error_identifies_cause (exampleEnv configNoGaps (Some "md"))
                  {| hugGrid := None |}) "md" eq_refl ltac:(discriminate)).
  reflexivity.
Defined.
